(** * ninja_extra.controllers.controller_route.route_functions

    A shallow embedding of [route_functions.py]: the three route-function
    classes ([RouteFunction], [RetrieveObjectRouteFunction],
    [PaginatedRouteFunction]), the signature rewriting they perform when a
    handler is registered, and the wrapped callable that the framework
    invokes on each request.

    Python objects that the module only passes around are values of
    [PyVal]; the route-function instances, which the module mutates and
    which the wrapped callable shares with the caller of [from_route], live
    in a heap; the controller instance and the route definition are records
    of the methods this module calls on them. *)

From Stdlib Require Import ZArith Bool Lia.
From stdpp Require Import base option list gmap strings.

(** ** Python values *)

(** Exceptions that cross this module.  A [TypeError] is raised by the
    interpreter itself (a keyword argument that cannot be bound, an
    [await] of something that is not awaitable); its message depends on
    the version of the interpreter and is not modelled. *)
Inductive PyExc : Type :=
| ValueError (msg : string)
| KeyError (key : string)
| TypeError
| UserException (name : string).

(** The outcome of evaluating a Python expression. *)
Inductive Result (A : Type) : Type :=
| Return (a : A)
| Raise (e : PyExc).
Arguments Return {A} a.
Arguments Raise {A} e.

(** Classes whose identity the module observes through [type(...)]. *)
Inductive PyClass : Type :=
| C_type                  (* builtins.type *)
| C_NoneType
| C_ellipsis
| C_bool
| C_int
| C_str
| C_coroutine
| C_inspect_empty         (* inspect._empty, i.e. inspect.Parameter.empty *)
| C_params_Query          (* ninja.params.Query *)
| C_user (name : string)  (* any other class that declares no metaclass *)
| C_with_metaclass (name : string) (meta : PyClass).
                          (* a class with a metaclass: an Enum, an ABC *)

#[global] Instance PyClass_eq_dec : EqDecision PyClass.
Proof. solve_decision. Defined.

#[warnings="-register-all"] Inductive PyVal : Type :=
| VNone
| VEllipsis
| VBool (b : bool)
| VInt (z : Z)
| VStr (s : string)
| VClass (c : PyClass)                 (* a class object used as a value *)
| VQuery (default : PyVal)             (* an instance of ninja.params.Query *)
| VObject (cls : string) (oid : nat)   (* an instance of another class *)
| VCoroutine (body : Result PyVal)     (* a coroutine object, not yet awaited *)
| VAwaitable (cls : string) (oid : nat) (result : Result PyVal).
                       (* another awaitable: an instance of a class with
                          [__await__], and what awaiting it gives *)

(** [type(C)] of a class object [C]: the metaclass the class declares, and
    [type] when it declares none.  [inspect._empty] declares none, and
    neither does [ninja.params.Query], a plain subclass of pydantic's
    [FieldInfo]. *)
Definition metaclass (c : PyClass) : PyClass :=
  match c with
  | C_with_metaclass _ meta => meta
  | _ => C_type
  end.

(** [type(v)]. *)
Definition type_of (v : PyVal) : PyClass :=
  match v with
  | VNone => C_NoneType
  | VEllipsis => C_ellipsis
  | VBool _ => C_bool
  | VInt _ => C_int
  | VStr _ => C_str
  | VClass c => metaclass c
  | VQuery _ => C_params_Query
  | VObject cls _ => C_user cls
  | VCoroutine _ => C_coroutine
  | VAwaitable cls _ _ => C_user cls
  end.

(** Modelled from the spec: the module [ninja.params] is not part of this
    repository.  The spec calls [params.Query] the framework's
    query-parameter marker type, and [Query(...)] the framework's empty
    query marker: [params.Query] is a class, and calling [Query] builds an
    instance of it. *)
Module params.
Definition Query : PyVal := VClass C_params_Query.
End params.

Definition Query (default : PyVal) : PyVal := VQuery default.

(** A default value is a query marker when it is an instance of
    [params.Query]; this is the notion of a query-type parameter that the
    specification uses. *)
Definition is_query_marker (v : PyVal) : bool :=
  match v with
  | VQuery _ => true
  | _ => false
  end.

(** ** The part of [inspect] that the module uses *)

Module inspect.

Inductive ParameterKind : Type :=
| POSITIONAL_ONLY
| POSITIONAL_OR_KEYWORD
| VAR_POSITIONAL
| KEYWORD_ONLY
| VAR_KEYWORD.

(** The kinds are an [IntEnum]; they compare by these values. *)
Definition kind_value (k : ParameterKind) : Z :=
  match k with
  | POSITIONAL_ONLY => 0
  | POSITIONAL_OR_KEYWORD => 1
  | VAR_POSITIONAL => 2
  | KEYWORD_ONLY => 3
  | VAR_KEYWORD => 4
  end.

(** [inspect.Parameter.empty]: the class [inspect._empty] itself. *)
Definition empty : PyVal := VClass C_inspect_empty.

(** [v is _empty] *)
Definition is_empty (v : PyVal) : bool :=
  match v with
  | VClass C_inspect_empty => true
  | _ => false
  end.

Record parameter : Type := mkParameter {
  name : string;
  kind : ParameterKind;
  default : PyVal;
  annotation : PyVal
}.

(** [Signature.parameters] is an ordered mapping; the module only reads
    its values, in order. *)
Record Signature : Type := mkSignature {
  parameters : list parameter;
  return_annotation : PyVal
}.

(** The state of the loop of [Signature.__init__] that validates a
    parameter list. *)
Record validation : Type := mkValidation {
  params : list string;
  top_kind : ParameterKind;
  kind_defaults : bool
}.

Definition positional (k : ParameterKind) : bool :=
  match k with
  | POSITIONAL_ONLY | POSITIONAL_OR_KEYWORD => true
  | _ => false
  end.

(** One iteration of that loop. *)
Definition validate_parameter (st : validation) (param : parameter)
  : Result validation :=
  if (kind_value (kind param) <? kind_value (top_kind st))%Z then
    Raise (ValueError "wrong parameter order")
  else
    let '(kd, top) :=
      if (kind_value (top_kind st) <? kind_value (kind param))%Z
      then (false, kind param)
      else (kind_defaults st, top_kind st) in
    if positional (kind param) && is_empty (default param) && kd then
      Raise (ValueError "non-default argument follows default argument")
    else
      let kd' :=
        if positional (kind param) && negb (is_empty (default param))
        then true else kd in
      if bool_decide (name param ∈ params st) then
        Raise (ValueError
               ("duplicate parameter name: '" +:+ name param +:+ "'"))
      else
        Return (mkValidation (name param :: params st) top kd').

Fixpoint validate_parameters (st : validation) (ps : list parameter)
  : Result validation :=
  match ps with
  | [] => Return st
  | param :: ps' =>
      match validate_parameter st param with
      | Return st' => validate_parameters st' ps'
      | Raise e => Raise e
      end
  end.

Definition initial : validation := mkValidation [] POSITIONAL_ONLY false.

(** [Signature(parameters, return_annotation=...)] *)
Definition Signature_new (ps : list parameter) (ret : PyVal)
  : Result Signature :=
  match validate_parameters initial ps with
  | Return _ => Return (mkSignature ps ret)
  | Raise e => Raise e
  end.

(** [sig.replace(parameters=ps)] *)
Definition replace (sig : Signature) (ps : list parameter)
  : Result Signature :=
  Signature_new ps (return_annotation sig).

(** What the constructor of [Parameter] accepts: a variadic parameter
    has no default. *)
Definition Parameter_ok (p : parameter) : bool :=
  match kind p with
  | VAR_POSITIONAL | VAR_KEYWORD => is_empty (default p)
  | _ => true
  end.

Definition validates (ps : list parameter) : bool :=
  match validate_parameters initial ps with
  | Return _ => true
  | Raise _ => false
  end.

(** The signatures [inspect] hands out are built by the two
    constructors: each parameter and the list as a whole passed their
    checks. *)
Definition Signature_ok (sig : Signature) : bool :=
  forallb Parameter_ok (parameters sig) && validates (parameters sig).

End inspect.

(** ** Collaborators *)

(** A handler: the function the user wrote in the controller class. *)
Record Handler : Type := mkHandler {
  __name__ : string;
  is_coroutine_function : bool;      (* declared with [async def] *)
  handler_signature : inspect.Signature
}.

(** [inspect.signature(api_func)] *)
Definition inspect_signature (api_func : Handler) : inspect.Signature :=
  handler_signature api_func.

(** [ninja.signature.is_async] *)
Definition is_async (api_func : Handler) : bool :=
  is_coroutine_function api_func.

(** A method of a collaborator, applied to its arguments: a plain function
    runs its body when it is called; a coroutine function returns a
    coroutine object, whose body runs when the object is awaited. *)
Inductive Callable : Type :=
| Function (body : Result PyVal)
| CoroutineFunction (body : Result PyVal).

Module APIController.

Inductive method : Type :=
| m_check_permissions
| m_run_view_func
| m_async_run_view_func
| m_run_object_view_func
| m_async_run_object_view_func
| m_run_list_view_func
| m_async_run_list_view_func.

#[global] Instance method_eq_dec : EqDecision method.
Proof. solve_decision. Defined.

(** Modelled from the spec: the controller class is not among the
    sources.  The spec lists what this module consumes from a controller
    instance: [check_permissions()] and the six execution strategies, each
    applied to the handler. *)
Record t : Type := mk {
  check_permissions : Callable;
  run_view_func : Handler -> Callable;
  async_run_view_func : Handler -> Callable;
  run_object_view_func : Handler -> Callable;
  async_run_object_view_func : Handler -> Callable;
  run_list_view_func : Handler -> Callable;
  async_run_list_view_func : Handler -> Callable
}.

(** [getattr(controller_instance, m)(api_func)] *)
Definition lookup (c : t) (m : method) (api_func : option Handler)
  : Callable :=
  match m, api_func with
  | m_check_permissions, None => check_permissions c
  | m_run_view_func, Some f => run_view_func c f
  | m_async_run_view_func, Some f => async_run_view_func c f
  | m_run_object_view_func, Some f => run_object_view_func c f
  | m_async_run_object_view_func, Some f => async_run_object_view_func c f
  | m_run_list_view_func, Some f => run_list_view_func c f
  | m_async_run_list_view_func, Some f => async_run_list_view_func c f
  | _, _ => Function (Raise TypeError)
  end.

End APIController.

(** Whether Python binds the keyword arguments of a call
    [m(request, *args, **kwargs)] of a method with the parameters
    [(self, request, *args, **kwargs)], as [get_owner_instance] and the
    factory of the route definition are: a keyword named after [self] or
    [request], which the call gives positionally, cannot be bound, and the
    call raises [TypeError] before the body of the method runs. *)
Definition binds (kwargs : gmap string PyVal) : bool :=
  match kwargs !! "self", kwargs !! "request" with
  | None, None => true
  | _, _ => false
  end.

(** Modelled from the spec: the class of the route definition is not among
    the sources.  The spec gives the two methods this module consumes:
    [create_view_func_instance(request, *args, **kwargs)], which returns
    the controller instance, and [resolve_paginated_request_schema()],
    which returns a type.  The factory is a method, so it binds its
    keyword arguments as said above. *)
Record Route : Type := RouteDefinition {
  create_view_func_instance :
    PyVal -> list PyVal -> gmap string PyVal -> Result APIController.t;
  resolve_paginated_request_schema : PyVal;
  create_view_func_instance_binds :
    forall request args kwargs,
      binds kwargs = false ->
      create_view_func_instance request args kwargs = Raise TypeError
}.

(** The route definition whose factory has the given body and whose
    resolver returns the given type. *)
Definition mkRoute
    (body : PyVal -> list PyVal -> gmap string PyVal ->
            Result APIController.t)
    (schema : PyVal) : Route :=
  RouteDefinition
    (fun request args kwargs =>
       if binds kwargs then body request args kwargs else Raise TypeError)
    schema
    ltac:(intros request args kwargs H; cbv beta; rewrite H; reflexivity).

(** ** Route-function instances and the heap *)

Inductive RouteFunctionClass : Type :=
| cls_RouteFunction
| cls_RetrieveObjectRouteFunction
| cls_PaginatedRouteFunction.

(** An instance.  [registered_filter] is the attribute of
    [PaginatedRouteFunction] (the class attribute [False] until the
    instance sets its own); the other two classes never read it. *)
Record RouteFunctionObject : Type := mkRouteFunction {
  __class__ : RouteFunctionClass;
  route_definition : Route;
  api_func : Handler;
  registered_filter : bool
}.

(** A reference to an instance. *)
Definition ref : Type := nat.

Definition Heap : Type := list RouteFunctionObject.

(** What an invocation does to its collaborators, in order. *)
Inductive Event : Type :=
| Created (request : PyVal) (args : list PyVal) (kwargs : gmap string PyVal)
| Called (m : APIController.method) (api_func : option Handler)
| Awaited (v : PyVal).

(** Python code of this module: it reads and writes the heap, calls its
    collaborators (the calls are recorded, in order), and returns or
    raises.  [None] is a dangling reference, which Python rules out. *)
Definition Py (A : Type) : Type :=
  Heap -> option (Result A * Heap * list Event).

#[global] Instance Py_ret : MRet Py :=
  fun A a h => Some (Return a, h, []).

#[global] Instance Py_bind : MBind Py :=
  fun A B k m h =>
    match m h with
    | None => None
    | Some (Raise e, h', t) => Some (Raise e, h', t)
    | Some (Return a, h', t) =>
        match k a h' with
        | None => None
        | Some (r, h'', t') => Some (r, h'', t ++ t')
        end
    end.

Definition lift {A} (r : Result A) : Py A :=
  fun h => Some (r, h, []).

Definition raise {A} (e : PyExc) : Py A := lift (Raise e).

Definition emit (e : Event) : Py unit :=
  fun h => Some (Return tt, h, [e]).

(** [cls(...)]: a new instance. *)
Definition new (o : RouteFunctionObject) : Py ref :=
  fun h => Some (Return (length h), h ++ [o], []).

(** Reading the attributes of [self]. *)
Definition deref (self : ref) : Py RouteFunctionObject :=
  fun h =>
    match h !! self with
    | Some o => Some (Return o, h, [])
    | None => None
    end.

Definition with_registered_filter (o : RouteFunctionObject) (b : bool)
  : RouteFunctionObject :=
  mkRouteFunction (__class__ o) (route_definition o) (api_func o) b.

(** [self.registered_filter = b] *)
Definition set_registered_filter (self : ref) (b : bool) : Py unit :=
  fun h =>
    match h !! self with
    | Some o => Some (Return tt, <[self := with_registered_filter o b]> h, [])
    | None => None
    end.

(** [controller_instance.m(api_func)]: a plain call. *)
Definition call (c : APIController.t) (m : APIController.method)
    (api_func : option Handler) : Py PyVal :=
  _ ← emit (Called m api_func);
  match APIController.lookup c m api_func with
  | Function body => lift body
  | CoroutineFunction body => mret (VCoroutine body)
  end.

(** [await v] *)
Definition await (v : PyVal) : Py PyVal :=
  _ ← emit (Awaited v);
  match v with
  | VCoroutine body => lift body
  | VAwaitable _ _ result => lift result
  | _ => raise TypeError
  end.

(** ** The wrapped callable *)

(** The function object [from_route] hands to the framework: a closure
    over [self], decorated with [functools.wraps(api_func)], on which
    signature resolution sets [__signature__]. *)
Record ContextFunc : Type := mkContextFunc {
  cf_async : bool;                         (* defined with [async def] *)
  cf_self : ref;
  __wrapped__ : Handler;
  __signature__ : option inspect.Signature
}.

Definition set_signature (f : ContextFunc) (sig : inspect.Signature)
  : ContextFunc :=
  mkContextFunc (cf_async f) (cf_self f) (__wrapped__ f) (Some sig).

(** The methods a subclass may override, as [self] resolves them. *)
Module Self.
Record methods : Type := mk {
  _resolve_api_func_signature_ :
    ref -> Handler -> ContextFunc -> Py ContextFunc;
  run_view_func : ref -> APIController.t -> Py PyVal;
  async_run_view_func : ref -> APIController.t -> Py PyVal;
  filter_registered_kwargs :
    ref -> gmap string PyVal -> Py (gmap string PyVal)
}.
End Self.

Import APIController.

Module RouteFunction.

Definition skip_parameters : list string := ["context"; "self"; "request"].

Definition get_required_api_func_signature (api_func : Handler)
  : inspect.Signature * list inspect.parameter :=
  let sig_inspect := inspect_signature api_func in
  let sig_parameter :=
    filter (fun parameter => inspect.name parameter ∉ skip_parameters)
           (inspect.parameters sig_inspect) in
  (sig_inspect, sig_parameter).

Definition _resolve_api_func_signature_ (self : ref) (api_func : Handler)
    (context_func : ContextFunc) : Py ContextFunc :=
  let '(sig_inspect, sig_parameter) :=
    get_required_api_func_signature api_func in
  sig_replaced ← lift (inspect.replace sig_inspect sig_parameter);
  mret (set_signature context_func sig_replaced).

Definition run_view_func (self : ref) (controller_instance : APIController.t)
  : Py PyVal :=
  o ← deref self;
  call controller_instance m_run_view_func (Some (api_func o)).

(** The body of the coroutine; it runs when the wrapper awaits it. *)
Definition async_run_view_func (self : ref)
    (controller_instance : APIController.t) : Py PyVal :=
  o ← deref self;
  v ← call controller_instance m_async_run_view_func (Some (api_func o));
  await v.

(** The wrapper calls it as
    [self.get_owner_instance(request, *args, **kwargs)]: the keyword
    arguments are bound first. *)
Definition get_owner_instance (self : ref) (request : PyVal)
    (args : list PyVal) (kwargs : gmap string PyVal) : Py APIController.t :=
  if binds kwargs then
    o ← deref self;
    _ ← emit (Created request args kwargs);
    lift (create_view_func_instance (route_definition o) request args kwargs)
  else raise TypeError.

Definition filter_registered_kwargs (self : ref)
    (kwargs : gmap string PyVal) : Py (gmap string PyVal) :=
  mret kwargs.

Definition methods : Self.methods :=
  Self.mk _resolve_api_func_signature_ run_view_func async_run_view_func
            filter_registered_kwargs.

End RouteFunction.

Module RetrieveObjectRouteFunction.

Definition run_view_func (self : ref) (controller_instance : APIController.t)
  : Py PyVal :=
  o ← deref self;
  call controller_instance m_run_object_view_func (Some (api_func o)).

Definition async_run_view_func (self : ref)
    (controller_instance : APIController.t) : Py PyVal :=
  o ← deref self;
  v ← call controller_instance m_async_run_object_view_func
           (Some (api_func o));
  await v.

Definition methods : Self.methods :=
  Self.mk RouteFunction._resolve_api_func_signature_
            run_view_func async_run_view_func
            RouteFunction.filter_registered_kwargs.

End RetrieveObjectRouteFunction.

Module PaginatedRouteFunction.

(** [type(param.default) == type(params.Query)] *)
Definition has_query_default (param : inspect.parameter) : bool :=
  bool_decide (type_of (inspect.default param) = type_of params.Query).

Definition _resolve_api_func_signature_ (self : ref) (api_func : Handler)
    (context_func : ContextFunc) : Py ContextFunc :=
  o ← deref self;
  let route_definition := route_definition o in
  let '(sig_inspect, required_func_signature) :=
    RouteFunction.get_required_api_func_signature api_func in
  let has_query_param := existsb has_query_default required_func_signature in
  required_func_signature ←
    (if negb has_query_param then
       let query_params :=
         inspect.mkParameter "filters" inspect.KEYWORD_ONLY
           (Query VEllipsis)
           (resolve_paginated_request_schema route_definition) in
       _ ← set_registered_filter self true;
       mret (required_func_signature ++ [query_params])
     else mret required_func_signature);
  sig_replaced ← lift (inspect.replace sig_inspect required_func_signature);
  mret (set_signature context_func sig_replaced).

Definition run_view_func (self : ref) (controller_instance : APIController.t)
  : Py PyVal :=
  o ← deref self;
  call controller_instance m_run_list_view_func (Some (api_func o)).

Definition async_run_view_func (self : ref)
    (controller_instance : APIController.t) : Py PyVal :=
  o ← deref self;
  v ← call controller_instance m_async_run_list_view_func
           (Some (api_func o));
  await v.

(** [kwargs.pop('filters')] raises [KeyError] on a missing key. *)
Definition filter_registered_kwargs (self : ref)
    (kwargs : gmap string PyVal) : Py (gmap string PyVal) :=
  o ← deref self;
  if registered_filter o then
    match kwargs !! "filters" with
    | Some _ => mret (delete "filters" kwargs)
    | None => raise (KeyError "filters")
    end
  else mret kwargs.

Definition methods : Self.methods :=
  Self.mk _resolve_api_func_signature_ run_view_func async_run_view_func
            filter_registered_kwargs.

End PaginatedRouteFunction.

(** Method resolution: which definition [self.m] reaches. *)
Definition mro (cls : RouteFunctionClass) : Self.methods :=
  match cls with
  | cls_RouteFunction => RouteFunction.methods
  | cls_RetrieveObjectRouteFunction => RetrieveObjectRouteFunction.methods
  | cls_PaginatedRouteFunction => PaginatedRouteFunction.methods
  end.

(** The methods below are defined in [RouteFunction] and inherited as they
    are; they reach the overridable ones through [self]. *)

(** The body of the synchronous closure. *)
Definition context_func (self : ref) (request : PyVal) (args : list PyVal)
    (kwargs : gmap string PyVal) : Py PyVal :=
  o ← deref self;
  kwargs' ← Self.filter_registered_kwargs (mro (__class__ o)) self kwargs;
  controller_instance ←
    RouteFunction.get_owner_instance self request args kwargs';
  _ ← call controller_instance m_check_permissions None;
  Self.run_view_func (mro (__class__ o)) self controller_instance.

(** The body of the asynchronous closure. *)
Definition async_context_func (self : ref) (request : PyVal)
    (args : list PyVal) (kwargs : gmap string PyVal) : Py PyVal :=
  o ← deref self;
  kwargs' ← Self.filter_registered_kwargs (mro (__class__ o)) self kwargs;
  controller_instance ←
    RouteFunction.get_owner_instance self request args kwargs';
  _ ← call controller_instance m_check_permissions None;
  Self.async_run_view_func (mro (__class__ o)) self controller_instance.

Definition convert_api_func_to_context_view (self : ref) (api_func : Handler)
  : Py ContextFunc :=
  o ← deref self;
  Self._resolve_api_func_signature_ (mro (__class__ o)) self api_func
          (mkContextFunc false self api_func None).

Definition convert_async_api_func_to_context_view (self : ref)
    (api_func : Handler) : Py ContextFunc :=
  o ← deref self;
  Self._resolve_api_func_signature_ (mro (__class__ o)) self api_func
          (mkContextFunc true self api_func None).

Definition from_route (cls : RouteFunctionClass) (api_func : Handler)
    (route_definition : Route) : Py (ContextFunc * ref) :=
  route_function ← new (mkRouteFunction cls route_definition api_func false);
  if is_async api_func then
    f ← convert_async_api_func_to_context_view route_function api_func;
    mret (f, route_function)
  else
    f ← convert_api_func_to_context_view route_function api_func;
    mret (f, route_function).

(** The framework invoking the wrapped callable with
    [(request, *args, **kwargs)]; an asynchronous one is driven to
    completion.  [kwargs] is the dictionary the wrapper receives: the
    keywords of the call other than [request], its own parameter. *)
Definition invoke (f : ContextFunc) (request : PyVal) (args : list PyVal)
    (kwargs : gmap string PyVal) : Py PyVal :=
  if cf_async f
  then async_context_func (cf_self f) request args kwargs
  else context_func (cf_self f) request args kwargs.

(** ** Examples *)

(** A positional-or-keyword parameter annotated [int]. *)
Definition arg (name : string) (default : PyVal) : inspect.parameter :=
  inspect.mkParameter name inspect.POSITIONAL_OR_KEYWORD default
                      (VClass C_int).

(** A handler [items] with the given parameters. *)
Definition handler (is_async : bool) (ps : list inspect.parameter) : Handler :=
  mkHandler "items" is_async (inspect.mkSignature ps inspect.empty).

(** A controller instance with the given permission check. *)
Definition ctrl (check : Callable) : APIController.t :=
  APIController.mk check
    (fun _ => Function (Return (VStr "view")))
    (fun _ => CoroutineFunction (Return (VStr "async view")))
    (fun _ => Function (Return (VStr "object")))
    (fun _ => CoroutineFunction (Return (VStr "async object")))
    (fun _ => Function (Return (VStr "list")))
    (fun _ => CoroutineFunction (Return (VStr "async list"))).

(** A route definition whose factory returns that controller instance. *)
Definition route (check : Callable) : Route :=
  mkRoute (fun _ _ _ => Return (ctrl check)) (VClass (C_user "Filters")).

(** ** Notions used in the statements *)

(** [covers s' s]: the validation loop in state [s'] accepts whatever it
    accepts in state [s]. *)
Definition covers (s' s : inspect.validation) : Prop :=
  (forall x : string, (x ∈ inspect.params s') -> (x ∈ inspect.params s)) /\
  (inspect.kind_value (inspect.top_kind s')
   <= inspect.kind_value (inspect.top_kind s))%Z /\
  (inspect.kind_value (inspect.top_kind s')
   = inspect.kind_value (inspect.top_kind s) ->
   inspect.kind_defaults s' = true -> inspect.kind_defaults s = true).

(** The required parameter list of a handler. *)
Definition required (api_func : Handler) : list inspect.parameter :=
  (RouteFunction.get_required_api_func_signature api_func).2.

(** The parameter that [PaginatedRouteFunction] synthesizes. *)
Definition filters_parameter (route_definition : Route) : inspect.parameter :=
  inspect.mkParameter "filters" inspect.KEYWORD_ONLY (Query VEllipsis)
    (resolve_paginated_request_schema route_definition).

(** The parameter list that signature resolution hands to
    [Signature.replace], and the value [registered_filter] has by then. *)
Definition resolved (cls : RouteFunctionClass) (route_definition : Route)
    (api_func : Handler) : list inspect.parameter * bool :=
  match cls with
  | cls_PaginatedRouteFunction =>
      if existsb PaginatedRouteFunction.has_query_default (required api_func)
      then (required api_func, false)
      else (required api_func ++ [filters_parameter route_definition], true)
  | _ => (required api_func, false)
  end.

(** The number of query-type parameters of a list: those whose default is
    a query marker. *)
Definition query_parameters (ps : list inspect.parameter) : nat :=
  length (filter (fun p => is_query_marker (inspect.default p) = true) ps).

(** The execution strategy the specification assigns to each class, in
    synchronous and asynchronous mode. *)
Definition strategy (cls : RouteFunctionClass) (async : bool)
  : APIController.method :=
  match cls, async with
  | cls_RouteFunction, false => m_run_view_func
  | cls_RouteFunction, true => m_async_run_view_func
  | cls_RetrieveObjectRouteFunction, false => m_run_object_view_func
  | cls_RetrieveObjectRouteFunction, true => m_async_run_object_view_func
  | cls_PaginatedRouteFunction, false => m_run_list_view_func
  | cls_PaginatedRouteFunction, true => m_async_run_list_view_func
  end.

(** Whether an instance strips [filters] from the keyword arguments. *)
Definition strips_filters (o : RouteFunctionObject) : bool :=
  match __class__ o with
  | cls_PaginatedRouteFunction => registered_filter o
  | _ => false
  end.

(** What [filter_registered_kwargs] of the instance's class makes of the
    keyword arguments. *)
Definition filtered (o : RouteFunctionObject) (kwargs : gmap string PyVal)
  : Result (gmap string PyVal) :=
  if strips_filters o then
    match kwargs !! "filters" with
    | Some _ => Return (delete "filters" kwargs)
    | None => Raise (KeyError "filters")
    end
  else Return kwargs.

(** A default value that is a class object. *)
Definition is_class (v : PyVal) : bool :=
  match v with
  | VClass _ => true
  | _ => false
  end.

(** The result of a plain call of a collaborator's method. *)
Definition called (c : Callable) : Result PyVal :=
  match c with
  | Function body => body
  | CoroutineFunction body => Return (VCoroutine body)
  end.

(** The result of awaiting a value. *)
Definition awaited (v : PyVal) : Result PyVal :=
  match v with
  | VCoroutine body => body
  | VAwaitable _ _ result => result
  | _ => Raise TypeError
  end.

(** What an invocation does with the controller instance [c], once it has
    one: the permission check, then the execution strategy. *)
Definition dispatch (o : RouteFunctionObject) (async : bool)
    (c : APIController.t) : Result PyVal * list Event :=
  match called (check_permissions c) with
  | Raise e => (Raise e, [Called m_check_permissions None])
  | Return _ =>
      let m := strategy (__class__ o) async in
      match called (APIController.lookup c m (Some (api_func o))) with
      | Raise e =>
          (Raise e,
           [Called m_check_permissions None; Called m (Some (api_func o))])
      | Return v =>
          if async then
            (awaited v,
             [Called m_check_permissions None; Called m (Some (api_func o));
              Awaited v])
          else
            (Return v,
             [Called m_check_permissions None; Called m (Some (api_func o))])
      end
  end.

(** What an invocation does with the filtered keyword arguments [kw]: if
    they bind, it asks the factory of the route definition for a
    controller instance. *)
Definition serve (o : RouteFunctionObject) (async : bool) (request : PyVal)
    (args : list PyVal) (kw : gmap string PyVal)
  : Result PyVal * list Event :=
  if binds kw then
    match create_view_func_instance (route_definition o) request args kw with
    | Raise e => (Raise e, [Created request args kw])
    | Return c =>
        (fst (dispatch o async c),
         Created request args kw :: snd (dispatch o async c))
    end
  else (Raise TypeError, []).

(** Whether a value is awaitable: a coroutine object, or an instance of a
    class that defines [__await__]. *)
Definition is_awaitable (v : PyVal) : bool :=
  match v with
  | VCoroutine _ | VAwaitable _ _ _ => true
  | _ => false
  end.

(** A default value that is a class object whose type is [type]: a class
    that declares no metaclass. *)
Definition is_plain_class (v : PyVal) : bool :=
  match v with
  | VClass c => bool_decide (metaclass c = C_type)
  | _ => false
  end.

(** The names of a parameter list, in order. *)
Definition names (ps : list inspect.parameter) : list string :=
  map inspect.name ps.

(** The longest course an invocation can take: the factory, the permission
    check, the strategy [m] applied to [fn], and the await of its result. *)
Definition course (request : PyVal) (args : list PyVal)
    (kw : gmap string PyVal) (m : APIController.method) (fn : Handler)
    (v : PyVal) : list Event :=
  [Created request args kw; Called m_check_permissions None;
   Called m (Some fn); Awaited v].

(** * Properties *)

(** ** Validation of parameter lists *)

Section validation.
Import inspect.

Lemma covers_refl s : covers s s.
Proof. repeat split; auto; lia. Qed.

Lemma validate_parameter_inv st p s :
  validate_parameter st p = Return s ->
  (kind_value (top_kind st) <= kind_value (kind p))%Z /\
  (name p ∉ params st) /\
  params s = name p :: params st /\
  top_kind s = kind p /\
  (kind_value (top_kind st) = kind_value (kind p) ->
   kind_defaults st = true ->
   positional (kind p) && is_empty (default p) = false /\
   kind_defaults s = true) /\
  (positional (kind p) && negb (is_empty (default p)) = true ->
   kind_defaults s = true) /\
  (kind_defaults s = true ->
   positional (kind p) && negb (is_empty (default p)) = true \/
   (kind_value (top_kind st) = kind_value (kind p) /\
    kind_defaults st = true)).
Proof.
  unfold validate_parameter.
  destruct (Z.ltb_spec (kind_value (kind p)) (kind_value (top_kind st)));
    [discriminate|].
  destruct (Z.ltb_spec (kind_value (top_kind st)) (kind_value (kind p))).
  - rewrite andb_false_r.
    case_bool_decide; [discriminate|].
    intros [= <-]; simpl.
    split; [auto|]. split; [auto|]. split; [auto|]. split; [auto|].
    split; [lia|].
    split; [intros ->; reflexivity|].
    destruct (positional (kind p) && negb (is_empty (default p)));
      [auto|discriminate].
  - assert (kind_value (top_kind st) = kind_value (kind p)) as E by lia.
    destruct (positional (kind p) && is_empty (default p) && kind_defaults st)
      eqn:B; [discriminate|].
    case_bool_decide; [discriminate|].
    intros [= <-]; simpl.
    split; [auto|]. split; [auto|]. split; [auto|].
    split; [destruct (top_kind st), (kind p); simpl in E; congruence|].
    split.
    { intros _ D. rewrite D, andb_true_r in B. split; [exact B|].
      destruct (positional (kind p) && negb (is_empty (default p))); auto. }
    split; [intros ->; reflexivity|].
    destruct (positional (kind p) && negb (is_empty (default p))); auto.
Qed.

Lemma validate_parameter_intro st p :
  (kind_value (top_kind st) <= kind_value (kind p))%Z ->
  name p ∉ params st ->
  (kind_value (top_kind st) = kind_value (kind p) ->
   kind_defaults st = true ->
   positional (kind p) && is_empty (default p) = false) ->
  exists s, validate_parameter st p = Return s.
Proof.
  intros Hle Hfresh Hdef. unfold validate_parameter.
  destruct (Z.ltb_spec (kind_value (kind p)) (kind_value (top_kind st)));
    [lia|].
  destruct (Z.ltb_spec (kind_value (top_kind st)) (kind_value (kind p))).
  - rewrite andb_false_r. rewrite bool_decide_eq_false_2 by exact Hfresh.
    eexists; reflexivity.
  - destruct (kind_defaults st) eqn:D.
    + rewrite Hdef by (auto; lia). simpl.
      rewrite bool_decide_eq_false_2 by exact Hfresh.
      eexists; reflexivity.
    + rewrite andb_false_r. rewrite bool_decide_eq_false_2 by exact Hfresh.
      eexists; reflexivity.
Qed.

Lemma validate_parameter_mono s' s p r :
  covers s' s ->
  validate_parameter s p = Return r ->
  exists r', validate_parameter s' p = Return r' /\ covers r' r.
Proof.
  intros (Hn & Hk & Hd) H.
  destruct (validate_parameter_inv _ _ _ H)
    as (Hle & Hfresh & Hps & Htop & Hkeep & Hpos & Hset).
  destruct (validate_parameter_intro s' p) as [r' H'].
  - lia.
  - intros Hin. apply Hfresh, Hn, Hin.
  - intros E D.
    assert (kind_value (top_kind s) = kind_value (kind p)) as E2 by lia.
    apply Hkeep; [exact E2|]. apply Hd; [lia|exact D].
  - exists r'. split; [exact H'|].
    destruct (validate_parameter_inv _ _ _ H')
      as (Hle' & Hfresh' & Hps' & Htop' & Hkeep' & Hpos' & Hset').
    repeat split.
    + intros x. rewrite Hps, Hps', !elem_of_cons. intros [->|?]; auto.
    + rewrite Htop, Htop'. lia.
    + intros _ D. destruct (Hset' D) as [B|[E D']]; [auto|].
      assert (kind_value (top_kind s) = kind_value (kind p)) as E2 by lia.
      apply Hkeep; [exact E2|]. apply Hd; [lia|exact D'].
Qed.

Lemma validate_parameter_skip s' s p r :
  covers s' s ->
  validate_parameter s p = Return r ->
  covers s' r.
Proof.
  intros (Hn & Hk & Hd) H.
  destruct (validate_parameter_inv _ _ _ H)
    as (Hle & Hfresh & Hps & Htop & Hkeep & Hpos & Hset).
  repeat split.
  - intros x Hx. rewrite Hps, elem_of_cons. auto.
  - rewrite Htop. lia.
  - rewrite Htop. intros E D. apply Hkeep; [lia|].
    apply Hd; [lia|exact D].
Qed.

(** Dropping parameters from a list that validates leaves a list that
    validates. *)
Lemma validate_parameters_filter (Q : parameter -> Prop)
    `{!forall p, Decision (Q p)} ps :
  forall s' s r,
    covers s' s ->
    validate_parameters s ps = Return r ->
    exists r', validate_parameters s' (filter Q ps) = Return r' /\
               covers r' r.
Proof.
  induction ps as [|p ps IH]; intros s' s r Hc Hv; simpl in Hv.
  - injection Hv as <-. exists s'. split; [reflexivity|exact Hc].
  - destruct (validate_parameter s p) as [s1|e] eqn:E; [|discriminate].
    rewrite filter_cons. destruct (decide (Q p)).
    + destruct (validate_parameter_mono _ _ _ _ Hc E) as (s1' & E' & Hc').
      simpl. rewrite E'. eapply IH; eauto.
    + eapply IH; [|exact Hv]. eapply validate_parameter_skip; eauto.
Qed.

Lemma validates_filter (Q : parameter -> Prop)
    `{!forall p, Decision (Q p)} ps :
  validates ps = true -> validates (filter Q ps) = true.
Proof.
  unfold validates.
  destruct (validate_parameters initial ps) as [r|e] eqn:E; [|discriminate].
  destruct (validate_parameters_filter Q ps _ _ _ (covers_refl _) E)
    as (r' & -> & _).
  reflexivity.
Qed.

End validation.

(** ** Registration *)

Lemma deref_new (h : Heap) (o : RouteFunctionObject) :
  (h ++ [o]) !! length h = Some o.
Proof. apply list_lookup_middle. reflexivity. Qed.

Lemma insert_new (h : Heap) (o o' : RouteFunctionObject) :
  <[length h := o']> (h ++ [o]) = h ++ [o'].
Proof.
  rewrite insert_app_r_alt by lia. rewrite Nat.sub_diag. reflexivity.
Qed.

(** [from_route] in closed form: the instance it allocates, the parameter
    list it validates, and the callable it returns. *)
Lemma from_route_run cls api_func route_definition (h : Heap) :
  from_route cls api_func route_definition h =
  let '(ps, flag) := resolved cls route_definition api_func in
  let o := mkRouteFunction cls route_definition api_func flag in
  match inspect.replace (inspect_signature api_func) ps with
  | Return sig =>
      Some (Return (mkContextFunc (is_async api_func) (length h) api_func
                                  (Some sig), length h),
            h ++ [o], [])
  | Raise e => Some (Raise e, h ++ [o], [])
  end.
Proof.
  unfold from_route, convert_api_func_to_context_view,
    convert_async_api_func_to_context_view, resolved, required.
  unfold mbind, Py_bind, new, deref.
  destruct (is_async api_func); rewrite deref_new; simpl;
    destruct cls; simpl;
    unfold RouteFunction._resolve_api_func_signature_,
      PaginatedRouteFunction._resolve_api_func_signature_; simpl;
    cbv [mbind mret Py_bind Py_ret lift deref set_registered_filter].
  all: try (destruct (inspect.replace _ _); reflexivity).
  all: rewrite ?deref_new; destruct (existsb _ _); simpl.
  all: rewrite ?deref_new, ?insert_new; simpl.
  all: unfold filters_parameter; destruct (inspect.replace _ _); reflexivity.
Qed.

(** Signature resolution of [PaginatedRouteFunction] in closed form. *)
Lemma paginated_resolve_run self api_func f (h : Heap) o :
  h !! self = Some o ->
  PaginatedRouteFunction._resolve_api_func_signature_ self api_func f h =
  let '(ps, flag) :=
    resolved cls_PaginatedRouteFunction (route_definition o) api_func in
  let h' := if flag then <[self := with_registered_filter o true]> h else h in
  match inspect.replace (inspect_signature api_func) ps with
  | Return sig => Some (Return (set_signature f sig), h', [])
  | Raise e => Some (Raise e, h', [])
  end.
Proof.
  intros Ho.
  unfold PaginatedRouteFunction._resolve_api_func_signature_, resolved,
    required.
  simpl.
  cbv [mbind mret Py_bind Py_ret lift deref set_registered_filter].
  rewrite Ho.
  destruct (existsb _ _); simpl; rewrite ?Ho; simpl;
    unfold filters_parameter; destruct (inspect.replace _ _); reflexivity.
Qed.

(** ** Parameter lists that validate *)

Section validation_of_resolved.
Import inspect.

Lemma validate_parameters_app ps qs : forall st,
  validate_parameters st (ps ++ qs) =
  match validate_parameters st ps with
  | Return s => validate_parameters s qs
  | Raise e => Raise e
  end.
Proof.
  induction ps as [|p ps IH]; intros st; simpl; [reflexivity|].
  destruct (validate_parameter st p); [apply IH|reflexivity].
Qed.

Lemma validate_parameters_state ps : forall st s,
  validate_parameters st ps = Return s ->
  (forall x : string,
      (x ∈ params s) -> (x ∈ params st) \/ (x ∈ map name ps)) /\
  (forall K : Z,
      (kind_value (top_kind st) <= K)%Z ->
      Forall (fun p => (kind_value (kind p) <= K)%Z) ps ->
      (kind_value (top_kind s) <= K)%Z).
Proof.
  induction ps as [|p ps IH]; intros st s Hv; simpl in Hv.
  - injection Hv as <-. split; auto.
  - destruct (validate_parameter st p) as [s1|e] eqn:E; [|discriminate].
    destruct (validate_parameter_inv _ _ _ E)
      as (Hle & Hfresh & Hps & Htop & _).
    destruct (IH _ _ Hv) as [Hn Hk]. split.
    + intros x Hx. destruct (Hn x Hx) as [Hin|Hin].
      * rewrite Hps, elem_of_cons in Hin. simpl. rewrite elem_of_cons.
        tauto.
      * simpl. rewrite elem_of_cons. tauto.
    + intros K HK HF. inversion HF; subst. apply Hk; [|assumption].
      rewrite Htop. assumption.
Qed.

(** The test of [PaginatedRouteFunction] holds of exactly the defaults
    that are class objects whose type is [type], [Parameter.empty] among
    them. *)
Lemma has_query_default_class p :
  PaginatedRouteFunction.has_query_default p = is_plain_class (default p).
Proof.
  unfold PaginatedRouteFunction.has_query_default.
  destruct (default p); reflexivity.
Qed.

Lemma is_plain_class_is_class v :
  is_plain_class v = true -> is_class v = true.
Proof. destruct v; simpl; congruence. Qed.

(** So a parameter without a default passes the test, and a parameter
    whose default is a query marker does not. *)
Lemma has_query_default_empty p :
  is_empty (default p) = true ->
  PaginatedRouteFunction.has_query_default p = true.
Proof.
  rewrite has_query_default_class.
  destruct (default p) as [| | | | |[]| | | |]; simpl; congruence.
Qed.

Lemma has_query_default_marker p :
  is_query_marker (default p) = true ->
  PaginatedRouteFunction.has_query_default p = false.
Proof.
  rewrite has_query_default_class. destruct (default p); simpl; congruence.
Qed.

Lemma validates_with_filters ps rd :
  forallb Parameter_ok ps = true ->
  validates ps = true ->
  existsb PaginatedRouteFunction.has_query_default ps = false ->
  (forall p, p ∈ ps -> name p <> "filters") ->
  validates (ps ++ [filters_parameter rd]) = true.
Proof.
  intros Hok Hv Hq Hname. unfold validates in *.
  rewrite validate_parameters_app.
  destruct (validate_parameters initial ps) as [s|e] eqn:E; [|discriminate].
  destruct (validate_parameters_state _ _ _ E) as [Hn Hk].
  destruct (validate_parameter_intro s (filters_parameter rd)) as [s' Hs'].
  - apply Hk; [simpl; lia|].
    rewrite Forall_forall. intros p Hp.
    rewrite forallb_forall in Hok.
    assert (Parameter_ok p = true) as Hp1
        by (apply Hok, list_elem_of_In, Hp).
    assert (PaginatedRouteFunction.has_query_default p = false) as Hp2.
    { destruct (PaginatedRouteFunction.has_query_default p) eqn:B; auto.
      rewrite <- Hq. symmetry. apply existsb_exists.
      exists p. split; [apply list_elem_of_In, Hp|exact B]. }
    rewrite has_query_default_class in Hp2.
    unfold Parameter_ok in Hp1.
    destruct (kind p); simpl; try lia;
      destruct (default p) as [| | | | |[]| | | |]; discriminate.
  - intros Hin. destruct (Hn _ Hin) as [Hin'|Hin'].
    + simpl in Hin'. inversion Hin'.
    + apply list_elem_of_fmap in Hin' as (p & Hp & Hpin).
      apply (Hname p Hpin). symmetry. exact Hp.
  - reflexivity.
  - simpl. rewrite Hs'. reflexivity.
Qed.

Lemma replace_validates sig ps :
  validates ps = true ->
  replace sig ps = Return (mkSignature ps (return_annotation sig)).
Proof.
  unfold replace, Signature_new, validates.
  destruct (validate_parameters initial ps); [reflexivity|discriminate].
Qed.

Lemma replace_inv sig ps sig' :
  replace sig ps = Return sig' ->
  sig' = mkSignature ps (return_annotation sig).
Proof.
  unfold replace, Signature_new.
  destruct (validate_parameters initial ps); congruence.
Qed.

Lemma required_ok api_func :
  Signature_ok (inspect_signature api_func) = true ->
  forallb Parameter_ok (required api_func) = true /\
  validates (required api_func) = true.
Proof.
  unfold Signature_ok. rewrite andb_true_iff. intros [Hok Hv]. split.
  - rewrite forallb_forall in *. intros p Hp. apply Hok.
    apply list_elem_of_In. apply list_elem_of_In in Hp.
    unfold required in Hp. simpl in Hp.
    apply list_elem_of_filter in Hp. tauto.
  - apply validates_filter, Hv.
Qed.

Lemma required_skips api_func p :
  p ∈ required api_func -> name p ∉ RouteFunction.skip_parameters.
Proof.
  unfold required. simpl. rewrite list_elem_of_filter. tauto.
Qed.

End validation_of_resolved.

(** ** The exposed signature *)

(** C8. For every handler signature, the signature that [from_route]
    attaches to the wrapped callable has no parameter named [context],
    [self] or [request]; the handler's other parameters are all there, in
    their original order and with their kinds, defaults and annotations
    (only [PaginatedRouteFunction] may add its [filters] parameter after
    them, and only its resolution may fail). *)
Theorem exposed_signature_skips_context_self_request
    cls api_func route_definition (h : Heap) :
  inspect.Signature_ok (inspect_signature api_func) = true ->
  match from_route cls api_func route_definition h with
  | Some (Return (f, _), _, _) =>
      exists extra,
        __signature__ f =
        Some (inspect.mkSignature
                (filter
                   (fun p => inspect.name p ∉ ["context"; "self"; "request"])
                   (inspect.parameters (inspect_signature api_func))
                 ++ extra)
                (inspect.return_annotation (inspect_signature api_func))) /\
        (extra = [] \/
         cls = cls_PaginatedRouteFunction /\
         extra = [filters_parameter route_definition]) /\
        forall sig p,
          __signature__ f = Some sig ->
          p ∈ inspect.parameters sig ->
          inspect.name p <> "context" /\ inspect.name p <> "self" /\
          inspect.name p <> "request"
  | Some (Raise _, _, _) => cls = cls_PaginatedRouteFunction
  | None => False
  end.
Proof.
  intros Hok. destruct (required_ok _ Hok) as [Hpok Hv].
  rewrite from_route_run.
  assert (forall extra p,
             (extra = [] \/ extra = [filters_parameter route_definition]) ->
             p ∈ required api_func ++ extra ->
             inspect.name p <> "context" /\ inspect.name p <> "self" /\
             inspect.name p <> "request") as Hnames.
  { intros extra p Hextra Hp. apply elem_of_app in Hp as [Hp|Hp].
    - apply required_skips in Hp. unfold RouteFunction.skip_parameters in Hp.
      rewrite !not_elem_of_cons in Hp. tauto.
    - destruct Hextra as [-> | ->]; [inversion Hp|].
      apply list_elem_of_singleton in Hp as ->. simpl.
      repeat split; discriminate. }
  assert (resolved cls route_definition api_func = (required api_func, false)
          \/ cls = cls_PaginatedRouteFunction /\
             resolved cls route_definition api_func =
             (required api_func ++ [filters_parameter route_definition], true))
    as [E | [Ecls E]].
  { unfold resolved. destruct cls; auto. destruct (existsb _ _); auto. }
  - rewrite E. simpl. rewrite (replace_validates _ _ Hv).
    exists []. rewrite app_nil_r. split; [reflexivity|]. split; [auto|].
    intros sig p [= <-] Hp. simpl in Hp.
    apply (Hnames [] p); [auto|]. rewrite app_nil_r. exact Hp.
  - rewrite E. simpl.
    destruct (inspect.replace _ _) as [sig|e] eqn:R; [|exact Ecls].
    apply replace_inv in R as ->.
    exists [filters_parameter route_definition].
    split; [reflexivity|]. split; [auto|].
    intros sig p [= <-] Hp. simpl in Hp.
    apply (Hnames [filters_parameter route_definition] p); auto.
Qed.

Lemma exposed_signature_skips_context_self_request_witness :
  match from_route cls_RouteFunction
          (handler false [arg "self" inspect.empty; arg "request" inspect.empty;
                          arg "item_id" inspect.empty; arg "q" (VInt 1)])
          (route (Function (Return VNone))) [] with
  | Some (Return (f, _), _, _) =>
      option_map (fun sig => map inspect.name (inspect.parameters sig))
                 (__signature__ f) = Some ["item_id"; "q"]
  | _ => False
  end.
Proof.
  pose proof (exposed_signature_skips_context_self_request cls_RouteFunction
    (handler false [arg "self" inspect.empty; arg "request" inspect.empty;
                    arg "item_id" inspect.empty; arg "q" (VInt 1)])
    (route (Function (Return VNone))) [] eq_refl) as H.
  destruct (from_route _ _ _ _) as [[[[[f r]|e] h'] t]|];
    [|discriminate H|exact H].
  destruct H as (extra & -> & [-> | [E _]] & _); [reflexivity|discriminate E].
Defined.

(** ** [from_route] *)

(** C7, as the code has it.  For every handler whose signature [inspect]
    accepts, [from_route] of [RouteFunction] and of
    [RetrieveObjectRouteFunction] returns the pair of the wrapped callable
    and the new instance, and so does [from_route] of
    [PaginatedRouteFunction] when no required parameter of the handler is
    named [filters]; the wrapped callable is asynchronous exactly when the
    handler is, and it wraps that handler. *)
Theorem from_route_preserves_syncness
    cls (fn : Handler) route_definition (h : Heap) :
  inspect.Signature_ok (inspect_signature fn) = true ->
  (cls = cls_PaginatedRouteFunction ->
   forallb (fun p => bool_decide (inspect.name p <> "filters"))
           (required fn) = true) ->
  exists f o,
    from_route cls fn route_definition h =
    Some (Return (f, length h), h ++ [o], []) /\
    cf_async f = is_async fn /\
    cf_self f = length h /\
    __wrapped__ f = fn /\
    __class__ o = cls /\ api_func o = fn.
Proof.
  intros Hok Hname. destruct (required_ok _ Hok) as [Hpok Hv].
  rewrite from_route_run.
  assert (exists ps flag,
             resolved cls route_definition fn = (ps, flag) /\
             inspect.validates ps = true) as (ps & flag & -> & Hps).
  { unfold resolved. destruct cls; eauto.
    destruct (existsb _ _) eqn:Hq; eauto.
    do 2 eexists; split; [reflexivity|].
    apply validates_with_filters; auto.
    specialize (Hname eq_refl). rewrite forallb_forall in Hname.
    intros p Hp. apply list_elem_of_In, Hname in Hp.
    apply bool_decide_eq_true in Hp. exact Hp. }
  simpl. rewrite (replace_validates _ _ Hps).
  do 2 eexists. split; [reflexivity|]. simpl. auto.
Qed.

Lemma from_route_preserves_syncness_witness :
  exists f o,
    from_route cls_PaginatedRouteFunction
      (handler true [arg "self" inspect.empty; arg "page" (VInt 1)])
      (route (Function (Return VNone))) [] =
    Some (Return (f, 0), [o], []) /\ cf_async f = true.
Proof.
  destruct (from_route_preserves_syncness cls_PaginatedRouteFunction
    (handler true [arg "self" inspect.empty; arg "page" (VInt 1)])
    (route (Function (Return VNone))) [] eq_refl (fun _ => eq_refl))
    as (f & o & E & Ha & _).
  exists f, o. split; [exact E|exact Ha].
Defined.

(** C7 as stated fails: [from_route] of [PaginatedRouteFunction] returns no
    pair for a handler that has a parameter named [filters] of its own. *)
Lemma from_route_raises_on_own_filters :
  let api_func :=
    handler true [arg "self" inspect.empty; arg "page" (VInt 1);
                  arg "filters" (VStr "all")] in
  let route_definition := route (Function (Return VNone)) in
  from_route cls_PaginatedRouteFunction api_func route_definition [] =
  Some (Raise (ValueError "duplicate parameter name: 'filters'"),
        [mkRouteFunction cls_PaginatedRouteFunction route_definition api_func
                         true],
        []) /\
  ~ exists f r h t,
      from_route cls_PaginatedRouteFunction api_func route_definition [] =
      Some (Return (f, r), h, t).
Proof.
  split; [reflexivity|].
  intros (f & r & h & t & E). discriminate E.
Qed.

(** ** Signature resolution of [PaginatedRouteFunction] *)

(** C1 at a handler that declares a query parameter, [(self, q=Query(...))]:
    the test compares [type(Query(...))], the class [params.Query], with
    [type(params.Query)], the metaclass, so the marker is not recognised;
    [filters] is appended next to [q] and [registered_filter] becomes
    [True]. *)
Example declared_query_parameter_is_not_recognised :
  let api_func :=
    handler false [arg "self" inspect.empty; arg "q" (Query VEllipsis)] in
  let route_definition := route (Function (Return VNone)) in
  let o := mkRouteFunction cls_PaginatedRouteFunction route_definition
                           api_func false in
  let f := mkContextFunc false 0 api_func None in
  required api_func = [arg "q" (Query VEllipsis)] /\
  query_parameters (required api_func) = 1 /\
  PaginatedRouteFunction._resolve_api_func_signature_ 0 api_func f [o] =
  Some (Return
          (set_signature f
             (inspect.mkSignature
                [arg "q" (Query VEllipsis);
                 inspect.mkParameter "filters" inspect.KEYWORD_ONLY
                   (Query VEllipsis) (VClass (C_user "Filters"))]
                inspect.empty)),
        [with_registered_filter o true], []).
Proof. repeat split. Qed.

(** C2, as the code has it.  For every handler (with a signature [inspect]
    accepts) that has no query-type parameter in its required list, whose
    required parameters all have a default that is not a class object, and
    none of which is named [filters], signature resolution exposes the
    required list followed by exactly one more parameter: keyword-only,
    named [filters], with [Query(...)] as default and the route
    definition's paginated-request schema as annotation; and it sets
    [registered_filter] to [True]. *)
Theorem paginated_resolution_appends_filters
    self (fn : Handler) f (h : Heap) o :
  h !! self = Some o ->
  inspect.Signature_ok (inspect_signature fn) = true ->
  query_parameters (required fn) = 0 ->
  forallb (fun p => negb (is_class (inspect.default p)) &&
                    bool_decide (inspect.name p <> "filters"))
          (required fn) = true ->
  PaginatedRouteFunction._resolve_api_func_signature_ self fn f h =
  Some (Return
          (set_signature f
             (inspect.mkSignature
                (required fn ++
                 [inspect.mkParameter "filters" inspect.KEYWORD_ONLY
                    (Query VEllipsis)
                    (resolve_paginated_request_schema (route_definition o))])
                (inspect.return_annotation (inspect_signature fn)))),
        <[self := with_registered_filter o true]> h, []) /\
  registered_filter (with_registered_filter o true) = true.
Proof.
  intros Ho Hok _ Hps. destruct (required_ok _ Hok) as [Hpok Hv].
  split; [|reflexivity].
  rewrite (paginated_resolve_run _ _ _ _ _ Ho). unfold resolved.
  rewrite forallb_forall in Hps.
  assert (existsb PaginatedRouteFunction.has_query_default (required fn)
          = false) as Hq.
  { apply not_true_is_false. intros Hq.
    apply existsb_exists in Hq as (p & Hp & Hq).
    rewrite has_query_default_class in Hq.
    apply is_plain_class_is_class in Hq.
    apply Hps in Hp. rewrite Hq in Hp. discriminate Hp. }
  rewrite Hq. simpl.
  rewrite replace_validates; [reflexivity|].
  apply validates_with_filters; auto.
  intros p Hp. apply list_elem_of_In, Hps in Hp.
  apply andb_true_iff in Hp as [_ Hp].
  apply bool_decide_eq_true in Hp. exact Hp.
Qed.

Lemma paginated_resolution_appends_filters_witness :
  let fn := handler false [arg "self" inspect.empty; arg "page" (VInt 1)] in
  let rd := route (Function (Return VNone)) in
  let o := mkRouteFunction cls_PaginatedRouteFunction rd fn false in
  let f := mkContextFunc false 0 fn None in
  PaginatedRouteFunction._resolve_api_func_signature_ 0 fn f [o] =
  Some (Return
          (set_signature f
             (inspect.mkSignature
                [arg "page" (VInt 1);
                 inspect.mkParameter "filters" inspect.KEYWORD_ONLY
                   (Query VEllipsis) (VClass (C_user "Filters"))]
                inspect.empty)),
        [with_registered_filter o true], []).
Proof.
  intros fn rd o f.
  exact (proj1 (paginated_resolution_appends_filters 0 fn f [o] o
                  eq_refl eq_refl eq_refl eq_refl)).
Defined.

(** C2 as stated fails: a handler [(self, filters=None)] has no query-type
    parameter, and resolution exposes no signature for it; the second
    [filters] makes [Signature.replace] raise. *)
Lemma paginated_resolution_rejects_own_filters :
  let fn := handler false [arg "self" inspect.empty; arg "filters" VNone] in
  let rd := route (Function (Return VNone)) in
  let o := mkRouteFunction cls_PaginatedRouteFunction rd fn false in
  let f := mkContextFunc false 0 fn None in
  query_parameters (required fn) = 0 /\
  PaginatedRouteFunction._resolve_api_func_signature_ 0 fn f [o] =
  Some (Raise (ValueError "duplicate parameter name: 'filters'"),
        [with_registered_filter o true], []).
Proof. split; reflexivity. Qed.

Lemma query_parameters_app ps qs :
  query_parameters (ps ++ qs) = query_parameters ps + query_parameters qs.
Proof.
  unfold query_parameters. rewrite filter_app, length_app. reflexivity.
Qed.

(** C3, as the code has it.  For every handler that has no query-type
    parameter of its own in its required list, the signature that
    resolution exposes has at most one parameter whose default is a query
    marker. *)
Theorem paginated_resolution_at_most_one_query_parameter
    self (fn : Handler) f (h : Heap) o f' h' t :
  h !! self = Some o ->
  query_parameters (required fn) = 0 ->
  PaginatedRouteFunction._resolve_api_func_signature_ self fn f h =
  Some (Return f', h', t) ->
  exists sig,
    __signature__ f' = Some sig /\
    query_parameters (inspect.parameters sig) <= 1.
Proof.
  intros Ho Hz. rewrite (paginated_resolve_run _ _ _ _ _ Ho).
  unfold resolved. destruct (existsb _ _); simpl;
    destruct (inspect.replace _ _) as [sig|e] eqn:R; try discriminate;
    apply replace_inv in R as ->; intros [= <- _ _];
    eexists; (split; [reflexivity|]); simpl.
  - rewrite Hz. lia.
  - rewrite query_parameters_app, Hz. vm_compute. lia.
Qed.

Lemma paginated_resolution_at_most_one_query_parameter_witness :
  let fn := handler false [arg "self" inspect.empty; arg "page" (VInt 1)] in
  let rd := route (Function (Return VNone)) in
  let o := mkRouteFunction cls_PaginatedRouteFunction rd fn false in
  let f := mkContextFunc false 0 fn None in
  exists f' h' t sig,
    PaginatedRouteFunction._resolve_api_func_signature_ 0 fn f [o] =
    Some (Return f', h', t) /\
    __signature__ f' = Some sig /\
    query_parameters (inspect.parameters sig) <= 1.
Proof.
  intros fn rd o f.
  destruct (paginated_resolution_at_most_one_query_parameter 0 fn f [o] o
              _ _ _ eq_refl eq_refl eq_refl) as (sig & E & Hle).
  do 4 eexists. split; [reflexivity|]. split; [exact E|exact Hle].
Defined.

(** C3 as stated fails: resolution leaves the query-type parameters of the
    handler where they are, so a handler that declares two of them,
    [(self, item_id, a=Query(1), b=Query(2))], has two in the exposed
    signature. *)
Lemma paginated_resolution_keeps_own_query_parameters :
  let fn :=
    handler false [arg "self" inspect.empty; arg "item_id" inspect.empty;
                   arg "a" (Query (VInt 1)); arg "b" (Query (VInt 2))] in
  let rd := route (Function (Return VNone)) in
  let o := mkRouteFunction cls_PaginatedRouteFunction rd fn false in
  let f := mkContextFunc false 0 fn None in
  exists f' sig,
    PaginatedRouteFunction._resolve_api_func_signature_ 0 fn f [o] =
    Some (Return f', [o], []) /\
    __signature__ f' = Some sig /\
    map inspect.name (inspect.parameters sig) = ["item_id"; "a"; "b"] /\
    query_parameters (inspect.parameters sig) = 2 /\
    ~ query_parameters (inspect.parameters sig) <= 1.
Proof.
  do 2 eexists. split; [reflexivity|]. split; [reflexivity|].
  split; [reflexivity|]. split; [reflexivity|]. vm_compute. lia.
Qed.

(** ** Invocation *)

(** Case analysis on an event of an explicit trace. *)
Ltac in_trace H :=
  repeat (apply elem_of_cons in H as [[=]|H]); subst;
  try (apply elem_of_nil in H; destruct H).

Lemma call_run c m a (h : Heap) :
  call c m a h = Some (called (APIController.lookup c m a), h, [Called m a]).
Proof.
  unfold call, called. cbv [mbind mret Py_bind Py_ret emit lift].
  destruct (APIController.lookup c m a); reflexivity.
Qed.

Lemma await_run v (h : Heap) :
  await v h = Some (awaited v, h, [Awaited v]).
Proof.
  unfold await, awaited. cbv [mbind mret Py_bind Py_ret emit lift raise].
  destruct v; reflexivity.
Qed.

Lemma filter_kwargs_run self kwargs (h : Heap) o :
  h !! self = Some o ->
  Self.filter_registered_kwargs (mro (__class__ o)) self kwargs h =
  Some (filtered o kwargs, h, []).
Proof.
  intros Ho. unfold filtered, strips_filters.
  destruct o as [[] rd fn flag]; simpl; try reflexivity.
  unfold PaginatedRouteFunction.filter_registered_kwargs.
  cbv [mbind mret Py_bind Py_ret deref raise lift]. rewrite Ho. simpl.
  destruct flag; [|reflexivity].
  destruct (kwargs !! "filters"); reflexivity.
Qed.

Lemma get_owner_instance_run self request args kwargs (h : Heap) o :
  h !! self = Some o ->
  RouteFunction.get_owner_instance self request args kwargs h =
  if binds kwargs then
    Some (create_view_func_instance (route_definition o) request args kwargs,
          h, [Created request args kwargs])
  else Some (Raise TypeError, h, []).
Proof.
  intros Ho. unfold RouteFunction.get_owner_instance.
  destruct (binds kwargs); [|reflexivity].
  cbv [mbind mret Py_bind Py_ret deref emit lift]. rewrite Ho.
  destruct (create_view_func_instance _ _ _ _); reflexivity.
Qed.

(** A factory that returns has bound its keyword arguments. *)
Lemma factory_returns_binds rd request args kw c :
  create_view_func_instance rd request args kw = Return c ->
  binds kw = true.
Proof.
  intros Hc. destruct (binds kw) eqn:Hb; [reflexivity|].
  rewrite (create_view_func_instance_binds rd _ _ _ Hb) in Hc.
  discriminate Hc.
Qed.

Lemma run_run self c (h : Heap) o :
  h !! self = Some o ->
  Self.run_view_func (mro (__class__ o)) self c h =
  Some (called (APIController.lookup c (strategy (__class__ o) false)
                                     (Some (api_func o))),
        h, [Called (strategy (__class__ o) false) (Some (api_func o))]).
Proof.
  intros Ho.
  destruct o as [[] rd fn flag]; simpl;
    unfold RouteFunction.run_view_func,
      RetrieveObjectRouteFunction.run_view_func,
      PaginatedRouteFunction.run_view_func;
    cbv [mbind Py_bind deref]; rewrite Ho; simpl; rewrite call_run;
    simpl; match goal with |- context [called ?x] => destruct (called x) end;
    reflexivity.
Qed.

Lemma async_run_run self c (h : Heap) o :
  h !! self = Some o ->
  Self.async_run_view_func (mro (__class__ o)) self c h =
  let m := strategy (__class__ o) true in
  match called (APIController.lookup c m (Some (api_func o))) with
  | Return v =>
      Some (awaited v, h, [Called m (Some (api_func o)); Awaited v])
  | Raise e => Some (Raise e, h, [Called m (Some (api_func o))])
  end.
Proof.
  intros Ho.
  destruct o as [[] rd fn flag]; simpl;
    unfold RouteFunction.async_run_view_func,
      RetrieveObjectRouteFunction.async_run_view_func,
      PaginatedRouteFunction.async_run_view_func;
    cbv [mbind Py_bind deref]; rewrite Ho; simpl; rewrite call_run;
    simpl; match goal with |- context [called ?x] => destruct (called x) end;
    try reflexivity; rewrite await_run; reflexivity.
Qed.

(** An invocation in closed form: what it returns or raises and what it
    does to its collaborators, step by step. *)
Lemma invoke_run f request args kwargs (h : Heap) o :
  h !! cf_self f = Some o ->
  invoke f request args kwargs h =
  match filtered o kwargs with
  | Raise e => Some (Raise e, h, [])
  | Return kw =>
      Some (fst (serve o (cf_async f) request args kw), h,
            snd (serve o (cf_async f) request args kw))
  end.
Proof.
  intros Ho. unfold invoke.
  assert (forall body : RouteFunctionObject -> ref -> APIController.t ->
                        Py PyVal,
    (o' ← deref (cf_self f);
     kwargs' ← Self.filter_registered_kwargs (mro (__class__ o')) (cf_self f)
                 kwargs;
     controller_instance ←
       RouteFunction.get_owner_instance (cf_self f) request args kwargs';
     _ ← call controller_instance m_check_permissions None;
     body o' (cf_self f) controller_instance) h =
    match filtered o kwargs with
    | Raise e => Some (Raise e, h, [])
    | Return kw =>
        if binds kw then
          match create_view_func_instance (route_definition o) request args
                                          kw
          with
          | Raise e => Some (Raise e, h, [Created request args kw])
          | Return c =>
              match called (check_permissions c) with
              | Raise e =>
                  Some (Raise e, h,
                        [Created request args kw;
                         Called m_check_permissions None])
              | Return _ =>
                  match body o (cf_self f) c h with
                  | Some (r, h', t) =>
                      Some (r, h',
                            [Created request args kw;
                             Called m_check_permissions None] ++ t)
                  | None => None
                  end
              end
          end
        else Some (Raise TypeError, h, [])
    end) as Hbody.
  { intros body. cbv [mbind Py_bind]. unfold deref at 1. rewrite Ho.
    rewrite (filter_kwargs_run _ _ _ _ Ho).
    destruct (filtered o kwargs) as [kw|e]; [|reflexivity].
    rewrite (get_owner_instance_run _ _ _ _ _ _ Ho).
    destruct (binds kw); [|reflexivity].
    destruct (create_view_func_instance _ _ _ _) as [c|e]; [|reflexivity].
    rewrite call_run. simpl.
    destruct (called (check_permissions c)); [|reflexivity].
    destruct (body o (cf_self f) c h) as [[[r h'] t]|]; reflexivity. }
  unfold serve, dispatch. destruct (cf_async f).
  - unfold async_context_func.
    rewrite (Hbody (fun o' => Self.async_run_view_func (mro (__class__ o')))).
    destruct (filtered o kwargs) as [kw|e]; [|reflexivity].
    destruct (binds kw); [|reflexivity].
    destruct (create_view_func_instance _ _ _ _) as [c|e]; [|reflexivity].
    destruct (called (check_permissions c)); [|reflexivity].
    rewrite (async_run_run _ _ _ _ Ho). simpl.
    destruct (called _); reflexivity.
  - unfold context_func.
    rewrite (Hbody (fun o' => Self.run_view_func (mro (__class__ o')))).
    destruct (filtered o kwargs) as [kw|e]; [|reflexivity].
    destruct (binds kw); [|reflexivity].
    destruct (create_view_func_instance _ _ _ _) as [c|e]; [|reflexivity].
    destruct (called (check_permissions c)); [|reflexivity].
    rewrite (run_run _ _ _ _ Ho). simpl.
    destruct (called _); reflexivity.
Qed.

Lemma dispatch_events o async c e :
  e ∈ snd (dispatch o async c) ->
  e = Called m_check_permissions None \/
  e = Called (strategy (__class__ o) async) (Some (api_func o)) \/
  async = true /\
  exists v,
    called (APIController.lookup c (strategy (__class__ o) async)
                                 (Some (api_func o))) = Return v /\
    e = Awaited v.
Proof.
  unfold dispatch. destruct (called (check_permissions c)); simpl.
  - destruct (called (APIController.lookup _ _ _)) as [v|] eqn:E; simpl.
    + destruct async; simpl; intros Hin;
        repeat (apply elem_of_cons in Hin as [->|Hin]); eauto 6;
        inversion Hin.
    + intros Hin. repeat (apply elem_of_cons in Hin as [->|Hin]); auto.
      inversion Hin.
  - intros Hin. apply elem_of_cons in Hin as [->|Hin]; auto. inversion Hin.
Qed.

Lemma serve_events o async request args kw e :
  e ∈ snd (serve o async request args kw) ->
  e = Created request args kw \/
  exists c,
    create_view_func_instance (route_definition o) request args kw = Return c
    /\ e ∈ snd (dispatch o async c).
Proof.
  unfold serve. destruct (binds kw); [|intros Hin; inversion Hin].
  destruct (create_view_func_instance _ _ _ _) as [c|]; simpl.
  - intros Hin. apply elem_of_cons in Hin as [->|Hin]; eauto.
  - intros Hin. apply elem_of_cons in Hin as [->|Hin]; auto. inversion Hin.
Qed.

(** With keyword arguments that bind, the invocation reaches the factory. *)
Lemma serve_binds o async request args kw :
  binds kw = true ->
  serve o async request args kw =
  match create_view_func_instance (route_definition o) request args kw with
  | Raise e => (Raise e, [Created request args kw])
  | Return c =>
      (fst (dispatch o async c),
       Created request args kw :: snd (dispatch o async c))
  end.
Proof. unfold serve. intros ->. reflexivity. Qed.

Lemma from_route_inv cls (fn : Handler) rd (h0 : Heap) f self h t :
  from_route cls fn rd h0 = Some (Return (f, self), h, t) ->
  exists flag sig,
    self = length h0 /\
    h = h0 ++ [mkRouteFunction cls rd fn flag] /\
    f = mkContextFunc (is_async fn) self fn (Some sig) /\
    t = [].
Proof.
  rewrite from_route_run.
  destruct (resolved cls rd fn) as [ps flag]. simpl.
  destruct (inspect.replace _ _) as [sig|e]; [|discriminate].
  intros [= <- <- <- <-]. exists flag, sig. auto.
Qed.

(** ** Keyword arguments *)

(** C10. When [registered_filter] is [True] and the keyword arguments have
    no [filters] key, [filter_registered_kwargs] raises [KeyError], and so
    does the wrapped callable, before it creates a controller instance or
    checks permissions. *)
Theorem missing_filters_raises_KeyError
    f request args (kwargs : gmap string PyVal) (h : Heap) o :
  h !! cf_self f = Some o ->
  __class__ o = cls_PaginatedRouteFunction ->
  registered_filter o = true ->
  kwargs !! "filters" = None ->
  PaginatedRouteFunction.filter_registered_kwargs (cf_self f) kwargs h =
  Some (Raise (KeyError "filters"), h, []) /\
  invoke f request args kwargs h = Some (Raise (KeyError "filters"), h, []).
Proof.
  intros Ho Hcls Hflag Hk.
  assert (filtered o kwargs = Raise (KeyError "filters")) as Hf.
  { unfold filtered, strips_filters. rewrite Hcls, Hflag, Hk. reflexivity. }
  split.
  - pose proof (filter_kwargs_run _ kwargs _ _ Ho) as H.
    rewrite Hcls, Hf in H. exact H.
  - rewrite (invoke_run _ _ _ _ _ _ Ho), Hf. reflexivity.
Qed.

Lemma binds_delete (kwargs : gmap string PyVal) k :
  binds kwargs = true -> binds (delete k kwargs) = true.
Proof.
  unfold binds.
  destruct (kwargs !! "self") eqn:Hs; [discriminate|].
  destruct (kwargs !! "request") eqn:Hr; [discriminate|]. intros _.
  assert (delete k kwargs !! "self" = None) as ->
      by (apply lookup_delete_None; auto).
  assert (delete k kwargs !! "request" = None) as ->
      by (apply lookup_delete_None; auto).
  reflexivity.
Qed.

(** C4, as the code has it.  For every keyword-argument map that has no
    key [self] or [request]: an instance whose [registered_filter] is
    [True] removes the [filters] key and calls the controller-instance
    factory with what is left, so the factory is never given [filters]
    (when the key is missing, [KeyError] is raised and the factory is not
    called); any other instance (one of [RouteFunction] or
    [RetrieveObjectRouteFunction], or one whose [registered_filter] is
    [False]) calls the factory with the keyword arguments as they are.
    That the factory is called with these keyword arguments shows in what
    the invocation does: it is decided by what the factory returns or
    raises for them. *)
Theorem registered_filter_is_kept_from_the_factory
    f request args (kwargs : gmap string PyVal) (h : Heap) o :
  h !! cf_self f = Some o ->
  binds kwargs = true ->
  let kw := if strips_filters o then delete "filters" kwargs else kwargs in
  (strips_filters o = true -> kw !! "filters" = None) /\
  (strips_filters o = true -> kwargs !! "filters" = None ->
   invoke f request args kwargs h = Some (Raise (KeyError "filters"), h, []))
  /\
  (strips_filters o = false \/ is_Some (kwargs !! "filters") ->
   Self.filter_registered_kwargs (mro (__class__ o)) (cf_self f) kwargs h =
     Some (Return kw, h, []) /\
   (forall e,
      create_view_func_instance (route_definition o) request args kw =
        Raise e ->
      invoke f request args kwargs h =
        Some (Raise e, h, [Created request args kw])) /\
   (forall c,
      create_view_func_instance (route_definition o) request args kw =
        Return c ->
      invoke f request args kwargs h =
        Some (fst (dispatch o (cf_async f) c), h,
              Created request args kw :: snd (dispatch o (cf_async f) c))))
  /\
  (forall r t rq a kw',
     invoke f request args kwargs h = Some (r, h, t) ->
     Created rq a kw' ∈ t -> rq = request /\ a = args /\ kw' = kw).
Proof.
  intros Ho Hb kw.
  assert (binds kw = true) as Hbkw.
  { subst kw. destruct (strips_filters o); [apply binds_delete|]; exact Hb. }
  rewrite (invoke_run _ _ _ _ _ _ Ho), (filter_kwargs_run _ _ _ _ Ho).
  assert (forall kw0 rq a kw',
             Created rq a kw' ∈ snd (serve o (cf_async f) request args kw0) ->
             rq = request /\ a = args /\ kw' = kw0) as Hone.
  { intros kw0 rq a kw' Hin.
    apply serve_events in Hin as [[= -> -> ->]|(c & _ & Hin)]; [auto|].
    apply dispatch_events in Hin as [[=]|[[=]|(_ & v & _ & [=])]]. }
  unfold filtered. subst kw. destruct (strips_filters o).
  - split; [intros _; apply lookup_delete_eq|].
    destruct (kwargs !! "filters") as [v|] eqn:Hk.
    + split; [intros _ [=]|]. split.
      * intros _. split; [reflexivity|].
        rewrite (serve_binds _ _ _ _ _ Hbkw).
        split; [intros e ->|intros c ->]; reflexivity.
      * intros r t rq a kw' [= <- <-] Hin. apply (Hone _ _ _ _ Hin).
    + split; [reflexivity|]. split.
      * intros [[=]|[v [=]]].
      * intros r t rq a kw' [= <- <-] Hin. inversion Hin.
  - split; [intros [=]|]. split; [intros [=]|]. split.
    + intros _. split; [reflexivity|].
      rewrite (serve_binds _ _ _ _ _ Hbkw).
      split; [intros e ->|intros c ->]; reflexivity.
    + intros r t rq a kw' [= <- <-] Hin. apply (Hone _ _ _ _ Hin).
Qed.

(** C4 as stated fails: a keyword named [self] is not forwarded.  The
    wrapper passes the keyword arguments on to [get_owner_instance], a
    method, which cannot bind it: the call raises [TypeError] and the
    factory is not called, whatever the class of the instance. *)
Lemma keyword_self_is_not_forwarded :
  let fn := handler false [arg "self" inspect.empty; arg "page" (VInt 1)] in
  let o := mkRouteFunction cls_RouteFunction
             (route (Function (Return VNone))) fn false in
  let f := mkContextFunc false 0 fn None in
  let kwargs : gmap string PyVal :=
    {[ "page" := VInt 2; "self" := VInt 1 ]} in
  strips_filters o = false /\
  RouteFunction.filter_registered_kwargs 0 kwargs [o] =
    Some (Return kwargs, [o], []) /\
  invoke f VNone [] kwargs [o] = Some (Raise TypeError, [o], []) /\
  ~ exists r t rq a kw,
      invoke f VNone [] kwargs [o] = Some (r, [o], t) /\
      Created rq a kw ∈ t.
Proof.
  split; [reflexivity|]. split; [reflexivity|].
  assert (invoke (mkContextFunc false 0
                    (handler false [arg "self" inspect.empty;
                                    arg "page" (VInt 1)]) None)
                 VNone [] {[ "page" := VInt 2; "self" := VInt 1 ]}
                 [mkRouteFunction cls_RouteFunction
                    (route (Function (Return VNone)))
                    (handler false [arg "self" inspect.empty;
                                    arg "page" (VInt 1)]) false] =
          Some (Raise TypeError,
                [mkRouteFunction cls_RouteFunction
                   (route (Function (Return VNone)))
                   (handler false [arg "self" inspect.empty;
                                   arg "page" (VInt 1)]) false], []))
    as E by (vm_compute; reflexivity).
  split; [exact E|].
  intros (r & t & rq & a & kw & E' & Hin).
  cbv zeta in E'. rewrite E in E'. injection E' as <- <-. inversion Hin.
Qed.

(** ** Permission check and execution strategy *)


(** C6. In an invocation that reaches the execution strategy, the method
    called on the controller instance is the one of the class of the route
    function, in the mode of the handler: [run_view_func] or
    [async_run_view_func] for [RouteFunction], the [object] pair for
    [RetrieveObjectRouteFunction], the [list] pair for
    [PaginatedRouteFunction].  It is passed the handler given to
    [from_route], it is the only strategy called, and its result (awaited,
    in asynchronous mode) is the result of the wrapped callable. *)
Theorem strategy_follows_the_class
    cls (fn : Handler) rd (h0 : Heap) f self h t0
    request args (kwargs kw : gmap string PyVal) c :
  from_route cls fn rd h0 = Some (Return (f, self), h, t0) ->
  Self.filter_registered_kwargs (mro cls) self kwargs h =
    Some (Return kw, h, []) ->
  create_view_func_instance rd request args kw = Return c ->
  (forall e, check_permissions c <> Function (Raise e)) ->
  let m := strategy cls (is_async fn) in
  exists r t,
    (if is_async fn
     then (v ← call c m (Some fn); await v) h
     else call c m (Some fn) h) = Some (r, h, t) /\
    invoke f request args kwargs h =
    Some (r, h,
          [Created request args kw; Called m_check_permissions None] ++ t) /\
    head t = Some (Called m (Some fn)) /\
    forall m' a, Called m' a ∈ t -> m' = m /\ a = Some fn.
Proof.
  intros Hfrom Hf Hc Hperm m.
  apply from_route_inv in Hfrom as (flag & sig & -> & -> & -> & ->).
  set (o := mkRouteFunction cls rd fn flag).
  assert ((h0 ++ [o]) !! length h0 = Some o) as Ho by apply deref_new.
  change cls with (__class__ o) in Hf.
  rewrite (filter_kwargs_run _ _ _ _ Ho) in Hf. injection Hf as Hf.
  rewrite (invoke_run (mkContextFunc (is_async fn) (length h0) fn (Some sig))
             request args kwargs _ o Ho), Hf.
  rewrite (serve_binds _ _ _ _ _ (factory_returns_binds _ _ _ _ _ Hc)).
  unfold dispatch. simpl. rewrite Hc.
  destruct (called (check_permissions c)) as [v0|e] eqn:Hcheck.
  2: { destruct (check_permissions c) as [[|e']|]; try discriminate.
       destruct (Hperm e' eq_refl). }
  fold m. cbv [mbind Py_bind]. rewrite call_run.
  destruct (called (APIController.lookup c m (Some fn))) as [v|e] eqn:Hm;
    simpl; [destruct (is_async fn); rewrite ?await_run|destruct (is_async fn)];
    simpl; do 2 eexists;
    (split; [reflexivity|]); (split; [reflexivity|]);
    (split; [reflexivity|]);
    intros m' a Hin; in_trace Hin; auto.
Qed.

(** C9. In every invocation that gets a controller instance, synchronous
    or asynchronous, [check_permissions] is called right after the instance
    is created, as a plain call: what follows the call is never an [await];
    the only value ever awaited is the result of the execution strategy.
    A [check_permissions] that is a coroutine function is therefore never
    run: whatever its body, the invocation goes on to the strategy. *)
Theorem check_permissions_is_not_awaited
    f request args (kwargs kw : gmap string PyVal) (h : Heap) o c :
  h !! cf_self f = Some o ->
  Self.filter_registered_kwargs (mro (__class__ o)) (cf_self f) kwargs h =
    Some (Return kw, h, []) ->
  create_view_func_instance (route_definition o) request args kw = Return c ->
  let m := strategy (__class__ o) (cf_async f) in
  exists r t,
    invoke f request args kwargs h =
    Some (r, h,
          Created request args kw :: Called m_check_permissions None :: t) /\
    (forall v, head t <> Some (Awaited v)) /\
    (forall v, Awaited v ∈ t ->
       cf_async f = true /\
       called (APIController.lookup c m (Some (api_func o))) = Return v) /\
    (forall body, check_permissions c = CoroutineFunction body ->
       head t = Some (Called m (Some (api_func o))) /\
       r = match called (APIController.lookup c m (Some (api_func o))) with
           | Return v => if cf_async f then awaited v else Return v
           | Raise e => Raise e
           end).
Proof.
  intros Ho Hf Hc m.
  rewrite (filter_kwargs_run _ _ _ _ Ho) in Hf. injection Hf as Hf.
  rewrite (invoke_run _ _ _ _ _ _ Ho), Hf.
  rewrite (serve_binds _ _ _ _ _ (factory_returns_binds _ _ _ _ _ Hc)).
  unfold dispatch. rewrite Hc. fold m.
  destruct (called (check_permissions c)) as [v0|e] eqn:Hcheck; simpl.
  - destruct (called (APIController.lookup c m _)) as [v|e] eqn:Hm; simpl.
    + destruct (cf_async f); simpl; do 2 eexists;
        (split; [reflexivity|]); (split; [discriminate|]);
        (split; [|intros; split; reflexivity]);
        intros v' Hin; in_trace Hin; auto.
    + do 2 eexists. split; [reflexivity|]. split; [discriminate|].
      split; [|intros; split; reflexivity].
      intros v' Hin. in_trace Hin.
  - do 2 eexists. split; [reflexivity|]. split; [discriminate|]. split.
    + intros v' Hin. in_trace Hin.
    + intros body Hb. rewrite Hb in Hcheck. discriminate Hcheck.
Qed.

(** ** The theorems at concrete invocations *)

Lemma missing_filters_raises_KeyError_witness :
  let fn := handler false [arg "self" inspect.empty; arg "page" (VInt 1)] in
  let o := mkRouteFunction cls_PaginatedRouteFunction
             (route (Function (Return VNone))) fn true in
  let f := mkContextFunc false 0 fn None in
  invoke f VNone [] {[ "page" := VInt 2 ]} [o] =
  Some (Raise (KeyError "filters"), [o], []).
Proof.
  intros fn o f.
  refine (proj2 (missing_filters_raises_KeyError f VNone []
                   {[ "page" := VInt 2 ]} [o] o eq_refl eq_refl eq_refl _)).
  vm_compute. reflexivity.
Defined.

Lemma registered_filter_is_kept_from_the_factory_witness :
  let fn := handler false [arg "self" inspect.empty; arg "page" (VInt 1)] in
  let o := mkRouteFunction cls_PaginatedRouteFunction
             (route (Function (Return VNone))) fn true in
  let f := mkContextFunc false 0 fn None in
  let kwargs : gmap string PyVal :=
    {[ "filters" := VStr "new"; "page" := VInt 2 ]} in
  let c := ctrl (Function (Return VNone)) in
  invoke f VNone [] kwargs [o] =
  Some (fst (dispatch o false c), [o],
        Created VNone [] (delete "filters" kwargs) ::
        snd (dispatch o false c)).
Proof.
  intros fn o f kwargs c.
  destruct (registered_filter_is_kept_from_the_factory f VNone [] kwargs
              [o] o eq_refl eq_refl) as (_ & _ & H & _).
  destruct H as (_ & _ & H).
  { right. exists (VStr "new"). vm_compute. reflexivity. }
  exact (H c eq_refl).
Defined.


Lemma strategy_follows_the_class_witness :
  let fn := handler true [arg "self" inspect.empty; arg "pk" inspect.empty] in
  let rd := route (Function (Return VNone)) in
  let o := mkRouteFunction cls_RetrieveObjectRouteFunction rd fn false in
  let f :=
    mkContextFunc true 0 fn
      (Some (inspect.mkSignature [arg "pk" inspect.empty] inspect.empty)) in
  from_route cls_RetrieveObjectRouteFunction fn rd [] =
  Some (Return (f, 0), [o], []) /\
  invoke f VNone [] {[ "pk" := VInt 7 ]} [o] =
  Some (Return (VStr "async object"), [o],
        [Created VNone [] {[ "pk" := VInt 7 ]};
         Called m_check_permissions None;
         Called m_async_run_object_view_func (Some fn);
         Awaited (VCoroutine (Return (VStr "async object")))]).
Proof.
  intros fn rd o f. split; [reflexivity|].
  assert (create_view_func_instance rd VNone []
            ({[ "pk" := VInt 7 ]} : gmap string PyVal) =
          Return (ctrl (Function (Return VNone)))) as Hc
      by (vm_compute; reflexivity).
  destruct (strategy_follows_the_class cls_RetrieveObjectRouteFunction fn rd
              [] f 0 [o] [] VNone [] {[ "pk" := VInt 7 ]}
              {[ "pk" := VInt 7 ]} (ctrl (Function (Return VNone)))
              eq_refl eq_refl Hc
              ltac:(intros e; discriminate))
    as (r & t & Hstep & E & _).
  injection Hstep as <- <-. exact E.
Defined.

Lemma check_permissions_is_not_awaited_witness :
  let fn := handler true [arg "self" inspect.empty; arg "page" (VInt 1)] in
  let denied :=
    CoroutineFunction (Raise (UserException "PermissionDenied")) in
  let o := mkRouteFunction cls_PaginatedRouteFunction (route denied) fn
             false in
  let f := mkContextFunc true 0 fn None in
  exists t,
    invoke f VNone [] {[ "page" := VInt 2 ]} [o] =
    Some (Return (VStr "async list"), [o],
          Created VNone [] {[ "page" := VInt 2 ]}
          :: Called m_check_permissions None :: t) /\
    head t = Some (Called m_async_run_list_view_func (Some fn)).
Proof.
  intros fn denied o f.
  assert (create_view_func_instance (route_definition o) VNone []
            ({[ "page" := VInt 2 ]} : gmap string PyVal) =
          Return (ctrl denied)) as Hc by (vm_compute; reflexivity).
  destruct (check_permissions_is_not_awaited f VNone []
              {[ "page" := VInt 2 ]} {[ "page" := VInt 2 ]} [o] o
              (ctrl denied) eq_refl eq_refl Hc)
    as (r & t & E & _ & _ & H).
  destruct (H _ eq_refl) as [Hhead Hr].
  exists t. subst r. split; [exact E|exact Hhead].
Defined.

(** * Further properties of the module *)

(** ** The course of an invocation *)



(** X2. What an invocation of a wrapped callable does to its
    collaborators is a prefix of one fixed course: one call of the factory
    with the request and the positional arguments it was given, one
    permission check, one call of the strategy of its class and mode with
    the handler of the instance, one await.  It leaves the heap as it is.
    When it calls nothing at all, it has raised [KeyError] for a missing
    [filters] or [TypeError] for a keyword that does not bind. *)
Theorem invocation_follows_one_course
    f request args (kwargs : gmap string PyVal) (h : Heap) o :
  h !! cf_self f = Some o ->
  exists r t kw v,
    invoke f request args kwargs h = Some (r, h, t) /\
    t `prefix_of`
      course request args kw (strategy (__class__ o) (cf_async f))
             (api_func o) v /\
    (t = [] -> r = Raise (KeyError "filters") \/ r = Raise TypeError).
Proof.
  intros Ho. rewrite (invoke_run _ _ _ _ _ _ Ho).
  assert (forall kw,
    exists r t v,
      Some (fst (serve o (cf_async f) request args kw), h,
            snd (serve o (cf_async f) request args kw)) = Some (r, h, t) /\
      t `prefix_of`
        course request args kw (strategy (__class__ o) (cf_async f))
               (api_func o) v /\
      (t = [] -> r = Raise TypeError)) as Hserve.
  { intros kw. unfold serve, dispatch, course.
    destruct (binds kw).
    2: { exists (Raise TypeError), [], VNone.
         split; [reflexivity|]. split; [apply prefix_nil|auto]. }
    destruct (create_view_func_instance _ _ _ _) as [c|e]; simpl;
      [destruct (called (check_permissions c)); simpl;
       [destruct (called (APIController.lookup _ _ _)) as [v|e]; simpl;
        [destruct (cf_async f); simpl|]|]|].
    all: do 2 eexists; eexists _.
    all: split; [reflexivity|]; split; [|discriminate].
    all: try (eexists; reflexivity).
    all: try (exists []; rewrite app_nil_r; reflexivity).
    Unshelve. all: exact VNone. }
  unfold filtered.
  destruct (strips_filters o); [destruct (kwargs !! "filters")|].
  2: { exists (Raise (KeyError "filters")), [], kwargs, VNone.
       split; [reflexivity|]. split; [apply prefix_nil|auto]. }
  all: match goal with
       | |- context [serve _ _ _ _ ?kw] =>
           destruct (Hserve kw) as (r & t & v & E & Hp & Hnil);
           exists r, t, kw, v; split; [exact E|]; split; [exact Hp|];
           intros Ht; right; exact (Hnil Ht)
       end.
Qed.

Lemma invocation_follows_one_course_witness :
  let fn := handler true [arg "self" inspect.empty; arg "page" (VInt 1)] in
  let o := mkRouteFunction cls_PaginatedRouteFunction
             (route (Function (Return VNone))) fn false in
  let f := mkContextFunc true 0 fn None in
  exists r t kw v,
    invoke f VNone [VInt 5] {[ "page" := VInt 2 ]} [o] = Some (r, [o], t) /\
    t `prefix_of` course VNone [VInt 5] kw m_async_run_list_view_func fn v.
Proof.
  intros fn o f.
  destruct (invocation_follows_one_course f VNone [VInt 5]
              {[ "page" := VInt 2 ]} [o] o eq_refl)
    as (r & t & kw & v & E & Hp & _).
  exists r, t, kw, v. split; [exact E|exact Hp].
Defined.

(** X3. A synchronous wrapped callable never awaits: when the strategy of
    the controller instance is a coroutine function, the wrapper returns
    the coroutine object it got, and the body of the strategy is not
    run. *)
Theorem synchronous_wrapper_returns_the_coroutine
    f request args (kwargs kw : gmap string PyVal) (h : Heap) o c body :
  h !! cf_self f = Some o ->
  cf_async f = false ->
  Self.filter_registered_kwargs (mro (__class__ o)) (cf_self f) kwargs h =
    Some (Return kw, h, []) ->
  create_view_func_instance (route_definition o) request args kw = Return c ->
  (forall e, check_permissions c <> Function (Raise e)) ->
  APIController.lookup c (strategy (__class__ o) false) (Some (api_func o)) =
    CoroutineFunction body ->
  invoke f request args kwargs h =
  Some (Return (VCoroutine body), h,
        [Created request args kw; Called m_check_permissions None;
         Called (strategy (__class__ o) false) (Some (api_func o))]).
Proof.
  intros Ho Hsync Hf Hc Hperm Hm.
  rewrite (filter_kwargs_run _ _ _ _ Ho) in Hf. injection Hf as Hf.
  rewrite (invoke_run _ _ _ _ _ _ Ho), Hf.
  rewrite (serve_binds _ _ _ _ _ (factory_returns_binds _ _ _ _ _ Hc)).
  unfold dispatch. rewrite Hc, Hsync, Hm.
  destruct (called (check_permissions c)) as [v0|e] eqn:Hcheck;
    [reflexivity|].
  destruct (check_permissions c) as [[|e']|]; try discriminate.
  destruct (Hperm e' eq_refl).
Qed.

Lemma synchronous_wrapper_returns_the_coroutine_witness :
  let fn := handler false [arg "self" inspect.empty] in
  let c :=
    APIController.mk (Function (Return VNone))
      (fun _ => CoroutineFunction (Raise (UserException "never run")))
      (fun _ => CoroutineFunction (Return VNone))
      (fun _ => Function (Return VNone))
      (fun _ => CoroutineFunction (Return VNone))
      (fun _ => Function (Return VNone))
      (fun _ => CoroutineFunction (Return VNone)) in
  let rd := mkRoute (fun _ _ _ => Return c) (VClass (C_user "Filters")) in
  let o := mkRouteFunction cls_RouteFunction rd fn false in
  let f := mkContextFunc false 0 fn None in
  invoke f VNone [] ∅ [o] =
  Some (Return (VCoroutine (Raise (UserException "never run"))), [o],
        [Created VNone [] ∅; Called m_check_permissions None;
         Called m_run_view_func (Some fn)]).
Proof.
  intros fn c rd o f.
  exact (synchronous_wrapper_returns_the_coroutine f VNone [] ∅ ∅ [o] o c
           (Raise (UserException "never run"))
           eq_refl eq_refl eq_refl eq_refl
           ltac:(intros e; discriminate) eq_refl).
Defined.

(** X4. An asynchronous wrapped callable awaits whatever the strategy
    returns.  When the strategy is a plain function that returns a value
    that is not awaitable (neither a coroutine nor an object with
    [__await__]), the strategy has run and the wrapper raises
    [TypeError]; when it returns an awaitable of any kind, the wrapper
    returns what awaiting it gives. *)
Theorem asynchronous_wrapper_needs_an_awaitable
    f request args (kwargs kw : gmap string PyVal) (h : Heap) o c v :
  h !! cf_self f = Some o ->
  cf_async f = true ->
  Self.filter_registered_kwargs (mro (__class__ o)) (cf_self f) kwargs h =
    Some (Return kw, h, []) ->
  create_view_func_instance (route_definition o) request args kw = Return c ->
  (forall e, check_permissions c <> Function (Raise e)) ->
  APIController.lookup c (strategy (__class__ o) true) (Some (api_func o)) =
    Function (Return v) ->
  exists r,
    invoke f request args kwargs h =
    Some (r, h,
          course request args kw (strategy (__class__ o) true) (api_func o)
                 v) /\
    (is_awaitable v = false -> r = Raise TypeError) /\
    (forall cls oid result, v = VAwaitable cls oid result -> r = result) /\
    (forall body, v = VCoroutine body -> r = body).
Proof.
  intros Ho Hasync Hf Hc Hperm Hm.
  rewrite (filter_kwargs_run _ _ _ _ Ho) in Hf. injection Hf as Hf.
  rewrite (invoke_run _ _ _ _ _ _ Ho), Hf.
  rewrite (serve_binds _ _ _ _ _ (factory_returns_binds _ _ _ _ _ Hc)).
  unfold dispatch, course. rewrite Hc, Hasync, Hm.
  destruct (called (check_permissions c)) as [v0|e] eqn:Hcheck.
  - simpl. eexists. split; [reflexivity|].
    split; [|split]; [destruct v; simpl; congruence| |];
      intros; subst v; reflexivity.
  - destruct (check_permissions c) as [[|e']|]; try discriminate.
    destruct (Hperm e' eq_refl).
Qed.

Lemma asynchronous_wrapper_needs_an_awaitable_witness :
  let fn := handler true [arg "self" inspect.empty] in
  let c :=
    APIController.mk (Function (Return VNone))
      (fun _ => Function (Return VNone))
      (fun _ => Function (Return (VInt 3)))
      (fun _ => Function (Return VNone))
      (fun _ => Function (Return VNone))
      (fun _ => Function (Return VNone))
      (fun _ => Function (Return VNone)) in
  let rd := mkRoute (fun _ _ _ => Return c) (VClass (C_user "Filters")) in
  let o := mkRouteFunction cls_RouteFunction rd fn false in
  let f := mkContextFunc true 0 fn None in
  invoke f VNone [] ∅ [o] =
  Some (Raise TypeError, [o],
        course VNone [] ∅ m_async_run_view_func fn (VInt 3)).
Proof.
  intros fn c rd o f.
  assert (create_view_func_instance (route_definition o) VNone []
            (∅ : gmap string PyVal) = Return c) as Hc
      by (vm_compute; reflexivity).
  destruct (asynchronous_wrapper_needs_an_awaitable f VNone [] ∅ ∅ [o] o c
              (VInt 3) eq_refl eq_refl eq_refl Hc
              ltac:(intros e; discriminate) eq_refl)
    as (r & E & Hr & _).
  rewrite (Hr eq_refl) in E. exact E.
Defined.

(** ** Registration *)

(** Signature resolution of any of the three classes in closed form. *)
Lemma resolve_run self (fn : Handler) f (h : Heap) o :
  h !! self = Some o ->
  Self._resolve_api_func_signature_ (mro (__class__ o)) self fn f h =
  let '(ps, flag) := resolved (__class__ o) (route_definition o) fn in
  let h' := if flag then <[self := with_registered_filter o true]> h else h in
  match inspect.replace (inspect_signature fn) ps with
  | Return sig => Some (Return (set_signature f sig), h', [])
  | Raise e => Some (Raise e, h', [])
  end.
Proof.
  intros Ho. destruct (__class__ o) eqn:Hcls; simpl.
  - unfold RouteFunction._resolve_api_func_signature_, required. simpl.
    cbv [mbind mret Py_bind Py_ret lift].
    destruct (inspect.replace _ _); reflexivity.
  - unfold RouteFunction._resolve_api_func_signature_, required. simpl.
    cbv [mbind mret Py_bind Py_ret lift].
    destruct (inspect.replace _ _); reflexivity.
  - rewrite (paginated_resolve_run _ _ _ _ _ Ho). reflexivity.
Qed.

Lemma validate_parameters_names ps : forall st s,
  inspect.validate_parameters st ps = Return s ->
  (forall x : string, (x ∈ inspect.params st) -> (x ∈ inspect.params s)) /\
  (forall x : string, (x ∈ names ps) -> (x ∈ inspect.params s)).
Proof.
  induction ps as [|p ps IH]; intros st s Hv; simpl in Hv.
  - injection Hv as <-. split; [auto|]. intros x Hx. inversion Hx.
  - destruct (inspect.validate_parameter st p) as [s1|e] eqn:E;
      [|discriminate].
    destruct (validate_parameter_inv _ _ _ E) as (_ & _ & Hps & _).
    destruct (IH _ _ Hv) as [Hkeep Hnew]. split.
    + intros x Hx. apply Hkeep. rewrite Hps, elem_of_cons. auto.
    + intros x Hx. unfold names in Hx. simpl in Hx.
      apply elem_of_cons in Hx as [->|Hx]; [|apply Hnew, Hx].
      apply Hkeep. rewrite Hps, elem_of_cons. auto.
Qed.

Lemma validates_snoc_fresh ps q :
  inspect.validates (ps ++ [q]) = true -> inspect.name q ∉ names ps.
Proof.
  unfold inspect.validates. rewrite validate_parameters_app.
  destruct (inspect.validate_parameters inspect.initial ps) as [s|e] eqn:E;
    [|discriminate].
  simpl. destruct (inspect.validate_parameter s q) as [s'|e] eqn:E';
    [|discriminate].
  intros _ Hin.
  destruct (validate_parameter_inv _ _ _ E') as (_ & Hfresh & _).
  apply Hfresh. apply (validate_parameters_names _ _ _ E). exact Hin.
Qed.

Lemma replace_inv_validates sig ps sig' :
  inspect.replace sig ps = Return sig' -> inspect.validates ps = true.
Proof.
  unfold inspect.replace, inspect.Signature_new, inspect.validates.
  destruct (inspect.validate_parameters inspect.initial ps);
    [reflexivity|discriminate].
Qed.

(** What a successful [from_route] leaves behind. *)
Lemma from_route_returns cls (fn : Handler) rd (h0 : Heap) f self h t :
  from_route cls fn rd h0 = Some (Return (f, self), h, t) ->
  exists ps flag,
    resolved cls rd fn = (ps, flag) /\
    inspect.validates ps = true /\
    self = length h0 /\
    h = h0 ++ [mkRouteFunction cls rd fn flag] /\
    f = mkContextFunc (is_async fn) self fn
          (Some (inspect.mkSignature ps
                   (inspect.return_annotation (inspect_signature fn)))) /\
    t = [].
Proof.
  rewrite from_route_run.
  destruct (resolved cls rd fn) as [ps flag]. simpl.
  destruct (inspect.replace _ _) as [sig|e] eqn:R; [|discriminate].
  pose proof (replace_inv_validates _ _ _ R) as Hv.
  apply replace_inv in R as ->.
  intros [= <- <- <- <-]. exists ps, flag. auto 10.
Qed.

(** X5. After a successful [from_route], the flag of the new instance
    tells what the exposed signature is: with [registered_filter] the
    required parameters followed by the synthesized [filters], without it
    the required parameters alone.  The flag is only ever set on a
    [PaginatedRouteFunction], and then no required parameter of the
    handler is named [filters]. *)
Theorem registered_filter_matches_the_signature
    cls (fn : Handler) rd (h0 : Heap) f self h t :
  from_route cls fn rd h0 = Some (Return (f, self), h, t) ->
  exists o sig,
    h !! self = Some o /\
    __signature__ f = Some sig /\
    inspect.parameters sig =
      (if registered_filter o
       then required fn ++ [filters_parameter rd]
       else required fn) /\
    (registered_filter o = true ->
     cls = cls_PaginatedRouteFunction /\ "filters" ∉ names (required fn)).
Proof.
  intros Hfrom.
  apply from_route_returns in Hfrom
    as (ps & flag & Hres & Hv & -> & -> & -> & ->).
  do 2 eexists. split; [apply deref_new|]. split; [reflexivity|]. simpl.
  unfold resolved in Hres.
  destruct cls; try (injection Hres as <- <-; split; [reflexivity|];
                     discriminate).
  destruct (existsb _ _); injection Hres as <- <-;
    (split; [reflexivity|]); [discriminate|].
  intros _. split; [reflexivity|].
  apply (validates_snoc_fresh _ (filters_parameter rd)), Hv.
Qed.

Lemma registered_filter_matches_the_signature_witness :
  let fn := handler false [arg "self" inspect.empty; arg "page" (VInt 1)] in
  let rd := route (Function (Return VNone)) in
  exists f h o sig,
    from_route cls_PaginatedRouteFunction fn rd [] =
      Some (Return (f, 0), h, []) /\
    h !! 0 = Some o /\ registered_filter o = true /\
    __signature__ f = Some sig /\
    inspect.parameters sig = required fn ++ [filters_parameter rd].
Proof.
  intros fn rd.
  destruct (registered_filter_matches_the_signature
              cls_PaginatedRouteFunction fn rd [] _ _ _ _ eq_refl)
    as (o & sig & Ho & Hsig & Hps & _).
  injection Ho as <-.
  do 4 eexists. split; [reflexivity|]. split; [reflexivity|].
  split; [reflexivity|]. split; [exact Hsig|exact Hps].
Defined.

(** X6. A required parameter without a default keeps
    [PaginatedRouteFunction] from injecting [filters]: the exposed
    signature is the required list, the heap (so [registered_filter]) is
    left as it is, and resolution does not fail. *)
Theorem parameter_without_default_suppresses_filters
    self (fn : Handler) f (h : Heap) o :
  h !! self = Some o ->
  inspect.Signature_ok (inspect_signature fn) = true ->
  existsb (fun p => inspect.is_empty (inspect.default p)) (required fn)
  = true ->
  PaginatedRouteFunction._resolve_api_func_signature_ self fn f h =
  Some (Return
          (set_signature f
             (inspect.mkSignature (required fn)
                (inspect.return_annotation (inspect_signature fn)))),
        h, []).
Proof.
  intros Ho Hok Hex. destruct (required_ok _ Hok) as [_ Hv].
  rewrite (paginated_resolve_run _ _ _ _ _ Ho). unfold resolved.
  assert (existsb PaginatedRouteFunction.has_query_default (required fn)
          = true) as ->.
  { apply existsb_exists in Hex as (p & Hp & He).
    apply existsb_exists. exists p.
    split; [exact Hp|apply has_query_default_empty, He]. }
  simpl. rewrite (replace_validates _ _ Hv). reflexivity.
Qed.

Lemma parameter_without_default_suppresses_filters_witness :
  let fn :=
    handler false [arg "self" inspect.empty; arg "category" inspect.empty;
                   arg "page" (VInt 1)] in
  let o := mkRouteFunction cls_PaginatedRouteFunction
             (route (Function (Return VNone))) fn false in
  let f := mkContextFunc false 0 fn None in
  PaginatedRouteFunction._resolve_api_func_signature_ 0 fn f [o] =
  Some (Return
          (set_signature f
             (inspect.mkSignature
                [arg "category" inspect.empty; arg "page" (VInt 1)]
                inspect.empty)),
        [o], []).
Proof.
  intros fn o f.
  exact (parameter_without_default_suppresses_filters 0 fn f [o] o
           eq_refl eq_refl eq_refl).
Defined.

Lemma filters_clash ps rd s :
  inspect.validate_parameters inspect.initial ps = Return s ->
  forallb inspect.Parameter_ok ps = true ->
  existsb PaginatedRouteFunction.has_query_default ps = false ->
  "filters" ∈ names ps ->
  inspect.validate_parameter s (filters_parameter rd) =
  Raise (ValueError "duplicate parameter name: 'filters'").
Proof.
  intros E Hok Hq Hin.
  destruct (validate_parameters_state _ _ _ E) as [_ Hk].
  assert (inspect.kind_value (inspect.top_kind s) <= 3)%Z as Htop.
  { apply Hk; [simpl; lia|].
    rewrite Forall_forall. intros p Hp.
    rewrite forallb_forall in Hok.
    assert (inspect.Parameter_ok p = true) as Hp1
        by (apply Hok, list_elem_of_In, Hp).
    assert (PaginatedRouteFunction.has_query_default p = false) as Hp2.
    { destruct (PaginatedRouteFunction.has_query_default p) eqn:B; auto.
      rewrite <- Hq. symmetry. apply existsb_exists.
      exists p. split; [apply list_elem_of_In, Hp|exact B]. }
    rewrite has_query_default_class in Hp2.
    unfold inspect.Parameter_ok in Hp1.
    destruct (inspect.kind p); simpl; try lia;
      destruct (inspect.default p) as [| | | | |[]| | | |]; discriminate. }
  apply (validate_parameters_names _ _ _ E) in Hin.
  unfold inspect.validate_parameter. simpl.
  destruct (Z.ltb_spec 3 (inspect.kind_value (inspect.top_kind s))); [lia|].
  destruct (inspect.kind_value (inspect.top_kind s) <? 3)%Z;
    rewrite bool_decide_eq_true_2 by exact Hin; reflexivity.
Qed.

Lemma has_query_param_classes ps :
  existsb PaginatedRouteFunction.has_query_default ps =
  negb (forallb (fun p => negb (is_plain_class (inspect.default p))) ps).
Proof.
  induction ps as [|p ps IH]; [reflexivity|]. simpl.
  rewrite IH, has_query_default_class.
  destruct (is_plain_class (inspect.default p)); reflexivity.
Qed.

(** X7. The one handler signature that [from_route] of
    [PaginatedRouteFunction] cannot resolve.  With a route definition
    whose schema resolver returns a type: when no required parameter of
    the handler has as default a class whose type is [type] (so [filters]
    is injected) and one of them is already named [filters],
    [Signature.replace] raises [ValueError] for the duplicate name and an
    instance whose [registered_filter] is [True] is left behind; for
    every other handler [from_route] returns. *)
Theorem paginated_from_route_fails_on_a_clash_only
    (fn : Handler) rd (h : Heap) :
  inspect.Signature_ok (inspect_signature fn) = true ->
  let clash :=
    forallb (fun p => negb (is_plain_class (inspect.default p)))
            (required fn) &&
    bool_decide ("filters" ∈ names (required fn)) in
  match from_route cls_PaginatedRouteFunction fn rd h with
  | Some (Raise e, h', t) =>
      clash = true /\
      e = ValueError "duplicate parameter name: 'filters'" /\
      h' = h ++ [mkRouteFunction cls_PaginatedRouteFunction rd fn true] /\
      t = []
  | Some (Return _, _, _) => clash = false
  | None => False
  end.
Proof.
  intros Hok clash. destruct (required_ok _ Hok) as [Hpok Hv].
  rewrite from_route_run. unfold resolved.
  pose proof (has_query_param_classes (required fn)) as Hq.
  subst clash. rewrite Hq.
  destruct (forallb (fun p => negb (is_plain_class (inspect.default p)))
                    (required fn)) eqn:Hall; simpl.
  - simpl in Hq.
    case_bool_decide as Hin.
    + unfold inspect.replace, inspect.Signature_new.
      rewrite validate_parameters_app.
      unfold inspect.validates in Hv.
      destruct (inspect.validate_parameters inspect.initial (required fn))
        as [s|e] eqn:E; [|discriminate].
      simpl. rewrite (filters_clash _ rd _ E Hpok Hq Hin). auto.
    + rewrite replace_validates; [reflexivity|].
      apply validates_with_filters; auto.
      intros p Hp Hname. apply Hin. unfold names.
      apply list_elem_of_fmap. exists p. auto.
  - rewrite (replace_validates _ _ Hv). reflexivity.
Qed.

Lemma paginated_from_route_fails_on_a_clash_only_witness :
  let fn :=
    handler false [arg "self" inspect.empty; arg "filters" (VStr "all")] in
  let rd := route (Function (Return VNone)) in
  from_route cls_PaginatedRouteFunction fn rd [] =
  Some (Raise (ValueError "duplicate parameter name: 'filters'"),
        [mkRouteFunction cls_PaginatedRouteFunction rd fn true], []).
Proof.
  intros fn rd.
  pose proof (paginated_from_route_fails_on_a_clash_only fn rd [] eq_refl)
    as H.
  cbv zeta in H.
  change (forallb _ (required fn) && bool_decide _) with true in H.
  destruct (from_route cls_PaginatedRouteFunction fn rd [])
    as [[[[[f r]|e] h'] t]|]; [discriminate H| |destruct H].
  destruct H as (_ & -> & -> & ->). reflexivity.
Defined.





(** ** Instances on the heap *)

(** X9. Registering a route leaves the routes registered before it alone:
    whether [from_route] returns or raises, the instances already on the
    heap are as they were, and a wrapped callable of one of them does
    after the registration what it did before. *)
Theorem from_route_leaves_other_routes_alone
    cls (fn : Handler) rd (h : Heap) self o :
  h !! self = Some o ->
  exists r h' t0,
    from_route cls fn rd h = Some (r, h', t0) /\
    h' !! self = Some o /\
    forall f request args (kwargs : gmap string PyVal),
      cf_self f = self ->
      exists r' t,
        invoke f request args kwargs h = Some (r', h, t) /\
        invoke f request args kwargs h' = Some (r', h', t).
Proof.
  intros Ho.
  assert (exists r o', from_route cls fn rd h = Some (r, h ++ [o'], []))
    as (r & o' & E).
  { rewrite from_route_run. destruct (resolved cls rd fn) as [ps flag].
    simpl. destruct (inspect.replace _ _); eauto. }
  assert ((h ++ [o']) !! self = Some o) as Ho'.
  { rewrite lookup_app_l; [exact Ho|]. eapply lookup_lt_Some, Ho. }
  exists r, (h ++ [o']), []. split; [exact E|]. split; [exact Ho'|].
  intros f request args kwargs <-.
  rewrite (invoke_run _ _ _ _ _ _ Ho), (invoke_run _ _ _ _ _ _ Ho').
  destruct (filtered o kwargs); eauto.
Qed.

Lemma from_route_leaves_other_routes_alone_witness :
  let fn := handler false [arg "self" inspect.empty; arg "page" (VInt 1)] in
  let rd := route (Function (Return VNone)) in
  let o := mkRouteFunction cls_RouteFunction rd fn false in
  exists r h' t0,
    from_route cls_PaginatedRouteFunction fn rd [o] = Some (r, h', t0) /\
    h' !! 0 = Some o.
Proof.
  intros fn rd o.
  destruct (from_route_leaves_other_routes_alone cls_PaginatedRouteFunction
              fn rd [o] 0 o eq_refl) as (r & h' & t0 & E & Ho & _).
  exists r, h', t0. split; [exact E|exact Ho].
Defined.

(** X10. Signature resolution, of whatever class and for whatever handler,
    never clears [registered_filter]: it leaves the class, the route
    definition and the handler of the instance as they are, sets the flag
    or leaves it, and touches no other instance. *)
Theorem resolution_never_clears_registered_filter
    self (fn : Handler) f (h : Heap) o r h' t :
  h !! self = Some o ->
  Self._resolve_api_func_signature_ (mro (__class__ o)) self fn f h =
    Some (r, h', t) ->
  exists o',
    h' !! self = Some o' /\
    __class__ o' = __class__ o /\
    route_definition o' = route_definition o /\
    api_func o' = api_func o /\
    (registered_filter o = true -> registered_filter o' = true) /\
    (forall i, i <> self -> h' !! i = h !! i) /\
    t = [].
Proof.
  intros Ho. rewrite (resolve_run _ _ _ _ _ Ho).
  destruct (resolved _ _ _) as [ps []]; simpl;
    destruct (inspect.replace _ _); intros [= <- <- <-].
  1,2: exists (with_registered_filter o true); split;
    [apply list_lookup_insert_eq; eapply lookup_lt_Some, Ho|];
    repeat split; auto;
    intros i Hi; apply list_lookup_insert_ne; auto.
  all: exists o; repeat split; auto.
Qed.

Lemma resolution_never_clears_registered_filter_witness :
  let fn :=
    handler false [arg "self" inspect.empty; arg "pk" inspect.empty] in
  let o := mkRouteFunction cls_PaginatedRouteFunction
             (route (Function (Return VNone))) fn true in
  let f := mkContextFunc false 0 fn None in
  exists r h' o',
    PaginatedRouteFunction._resolve_api_func_signature_ 0 fn f [o] =
      Some (r, h', []) /\
    h' !! 0 = Some o' /\ registered_filter o' = true.
Proof.
  intros fn o f.
  destruct (resolution_never_clears_registered_filter 0 fn f [o] o
              _ _ _ eq_refl eq_refl) as (o' & Ho' & _ & _ & _ & Hflag & _).
  do 3 eexists. split; [reflexivity|]. split; [exact Ho'|].
  apply Hflag. reflexivity.
Defined.

(** X11. Signature resolution is idempotent: run a second time on the same
    instance for the same handler, with the callable the first run
    returned, it returns that callable again and leaves the heap as the
    first run left it. *)
Theorem resolution_is_idempotent
    self (fn : Handler) f (h : Heap) o f1 h1 t :
  h !! self = Some o ->
  Self._resolve_api_func_signature_ (mro (__class__ o)) self fn f h =
    Some (Return f1, h1, t) ->
  Self._resolve_api_func_signature_ (mro (__class__ o)) self fn f1 h1 =
    Some (Return f1, h1, []).
Proof.
  intros Ho H. pose proof H as H1. rewrite (resolve_run _ _ _ _ _ Ho) in H1.
  destruct (resolved (__class__ o) (route_definition o) fn) as [ps flag]
    eqn:Hres.
  simpl in H1.
  destruct (inspect.replace _ _) as [sig|e] eqn:R; [|discriminate].
  injection H1 as <- <- <-.
  assert (self < length h) as Hlt by (eapply lookup_lt_Some, Ho).
  destruct flag.
  - set (o1 := with_registered_filter o true).
    assert (<[self := o1]> h !! self = Some o1) as Ho1
        by (apply list_lookup_insert_eq, Hlt).
    change (__class__ o) with (__class__ o1).
    rewrite (resolve_run _ _ _ _ _ Ho1).
    change (__class__ o1) with (__class__ o).
    change (route_definition o1) with (route_definition o).
    rewrite Hres. simpl. rewrite R.
    assert (<[self := with_registered_filter o1 true]> (<[self := o1]> h) =
            <[self := o1]> h) as -> by (apply list_insert_id; exact Ho1).
    reflexivity.
  - rewrite (resolve_run _ _ _ _ _ Ho), Hres. simpl. rewrite R. reflexivity.
Qed.

Lemma resolution_is_idempotent_witness :
  let fn := handler false [arg "self" inspect.empty; arg "page" (VInt 1)] in
  let o := mkRouteFunction cls_PaginatedRouteFunction
             (route (Function (Return VNone))) fn false in
  let f := mkContextFunc false 0 fn None in
  exists f1 h1,
    PaginatedRouteFunction._resolve_api_func_signature_ 0 fn f [o] =
      Some (Return f1, h1, []) /\
    PaginatedRouteFunction._resolve_api_func_signature_ 0 fn f1 h1 =
      Some (Return f1, h1, []).
Proof.
  intros fn o f. do 2 eexists. split; [reflexivity|].
  exact (resolution_is_idempotent 0 fn f [o] o _ _ _ eq_refl eq_refl).
Defined.

(** ** What the wrapper does with results *)



(** X13. With [registered_filter] set, [filter_registered_kwargs] undoes
    the addition of a [filters] argument: from keyword arguments without
    that key, extended by a value for [filters], it gives back the keyword
    arguments.  It cannot be applied twice: applied to its own result it
    raises [KeyError]. *)
Theorem filter_registered_kwargs_undoes_filters
    self (kwargs : gmap string PyVal) v (h : Heap) o :
  h !! self = Some o ->
  __class__ o = cls_PaginatedRouteFunction ->
  registered_filter o = true ->
  kwargs !! "filters" = None ->
  PaginatedRouteFunction.filter_registered_kwargs self
    (<["filters" := v]> kwargs) h = Some (Return kwargs, h, []) /\
  PaginatedRouteFunction.filter_registered_kwargs self kwargs h =
    Some (Raise (KeyError "filters"), h, []).
Proof.
  intros Ho Hcls Hflag Hk.
  assert (forall kws,
             PaginatedRouteFunction.filter_registered_kwargs self kws h =
             Some (filtered o kws, h, [])) as Hrun.
  { intros kws. pose proof (filter_kwargs_run _ kws _ _ Ho) as H.
    rewrite Hcls in H. exact H. }
  rewrite !Hrun. unfold filtered, strips_filters.
  rewrite Hcls, Hflag, Hk, lookup_insert_eq.
  rewrite delete_insert_eq, delete_id by exact Hk. auto.
Qed.

Lemma filter_registered_kwargs_undoes_filters_witness :
  let fn := handler false [arg "self" inspect.empty; arg "page" (VInt 1)] in
  let o := mkRouteFunction cls_PaginatedRouteFunction
             (route (Function (Return VNone))) fn true in
  let kwargs : gmap string PyVal := {[ "page" := VInt 2 ]} in
  PaginatedRouteFunction.filter_registered_kwargs 0
    (<["filters" := VStr "new"]> kwargs) [o] = Some (Return kwargs, [o], []).
Proof.
  intros fn o kwargs.
  refine (proj1 (filter_registered_kwargs_undoes_filters 0 kwargs
                   (VStr "new") [o] o eq_refl eq_refl eq_refl _)).
  vm_compute. reflexivity.
Defined.
